(** * GASpy: [gaspy/tasks/atoms_generators.py]

    A shallow embedding of the tasks that generate [ase.Atoms] documents
    (gas molecules, bulk structures, slabs, adsorption sites), and of the
    properties the specification states about them.

    Python values are modelled as the code has them: floats are IEEE
    binary64 ([PrimFloat.float]), documents are dictionaries keyed by
    strings ([gmap string pyval]), [ase.Atoms] objects are mutable objects
    on a heap and are passed by reference, and the pickle files that the
    tasks write are a map from paths to payloads.

    The first part holds the definitions: the data, the state, the
    collaborators that this module calls, the tasks, the resolver, and a
    small concrete set of collaborators. The second part holds the
    properties. *)

From Stdlib Require Import ZArith List Floats.
From stdpp Require Import base option strings list sorting gmap.

Open Scope Z_scope.

(** ** Python values *)

Module Py.

(** The values that end up in documents and in task parameters. A
    [VDict] keeps the insertion order of its items, as Python does. *)
#[local] Unset Elimination Schemes.
Inductive pyval : Type :=
| VNone : pyval
| VBool : bool -> pyval
| VInt : Z -> pyval
| VFloat : float -> pyval
| VStr : string -> pyval
| VTuple : list pyval -> pyval
| VList : list pyval -> pyval
| VDict : list (string * pyval) -> pyval.
#[local] Set Elimination Schemes.

(** Exceptions that the modelled code can raise. *)
Inductive exn : Type :=
| KeyError (key : string)
| IndexError
| TypeError
| FileNotFoundError (path : string)
| RemoteLookupError (what : string)
| InvalidReference.

Definition result (A : Type) : Type := exn + A.

Definition ok {A} (a : A) : result A := inr a.
Definition raise {A} (e : exn) : result A := inl e.

Definition bind {A B} (m : result A) (k : A -> result B) : result B :=
  match m with
  | inl e => inl e
  | inr a => k a
  end.

End Py.
Export Py.

Notation "'letE' x := m 'in' k" := (Py.bind m (fun x => k))
  (at level 10, x pattern, m at level 100, k at level 200).

(** A document ("doc", short for Mongo document) is a dictionary. *)
Abbreviation doc := (gmap string pyval).

(** ** The part of [ase.Atoms] that this module uses *)

Module Ase.

Definition vec3 : Type := float * float * float.

Definition vadd (a b : vec3) : vec3 :=
  let '(x, y, z) := a in
  let '(u, v, w) := b in
  (PrimFloat.add x u, PrimFloat.add y v, PrimFloat.add z w).

Definition vzero : vec3 := (0%float, 0%float, 0%float).

(** [numpy] broadcasting of a scalar over the rows of [positions]. *)
Definition vscalar (c : float) : vec3 := (c, c, c).

Inductive constraint : Type :=
| FixAtoms (indices : list nat).

Record Atom : Type := mkAtom
  { symbol : string;
    position : vec3;
    tag : Z }.

Record Atoms : Type := mkAtoms
  { atoms : list Atom;
    cell : vec3 * vec3 * vec3;
    pbc : bool * bool * bool;
    constraints : list constraint }.

Definition set_atoms (l : list Atom) (a : Atoms) : Atoms :=
  {| atoms := l; cell := cell a; pbc := pbc a; constraints := constraints a |}.

Definition set_position (p : vec3) (x : Atom) : Atom :=
  {| symbol := symbol x; position := p; tag := tag x |}.

Definition set_tag (t : Z) (x : Atom) : Atom :=
  {| symbol := symbol x; position := position x; tag := t |}.

(** [ase.Atoms(sym)] for a single chemical symbol: one atom at the
    origin, tag [0], no cell, not periodic. *)
Definition Atoms_init (sym : string) : Atoms :=
  {| atoms := [ {| symbol := sym; position := vzero; tag := 0 |} ];
     cell := (vzero, vzero, vzero);
     pbc := (false, false, false);
     constraints := [] |}.

(** [atoms.positions += d] *)
Definition translate (d : vec3) (a : Atoms) : Atoms :=
  set_atoms (map (fun x => set_position (vadd (position x) d) x) (atoms a)) a.

(** [atoms.cell = [a, b, c]]: three lengths give an orthorhombic cell. *)
Definition cell_of_lengths (a b c : float) : vec3 * vec3 * vec3 :=
  ((a, 0%float, 0%float), (0%float, b, 0%float), (0%float, 0%float, c)).

Definition set_cell (c : vec3 * vec3 * vec3) (a : Atoms) : Atoms :=
  {| atoms := atoms a; cell := c; pbc := pbc a; constraints := constraints a |}.

Definition set_pbc (p : bool * bool * bool) (a : Atoms) : Atoms :=
  {| atoms := atoms a; cell := cell a; pbc := p; constraints := constraints a |}.

(** [a + b]: the atoms of [b] appended to those of [a]; cell, periodicity
    and constraints are those of the left operand. *)
Definition extend (a b : Atoms) : Atoms :=
  set_atoms (atoms a ++ atoms b) a.

(** Python indexing of a sequence of length [n] with a possibly
    negative index. *)
Definition py_index (n : nat) (i : Z) : option nat :=
  if (0 <=? i) && (i <? Z.of_nat n) then Some (Z.to_nat i)
  else if (i <? 0) && (- Z.of_nat n <=? i) then Some (Z.to_nat (Z.of_nat n + i))
  else None.

(** [atoms[i].tag = t] *)
Definition set_tag_at (i : Z) (t : Z) (a : Atoms) : option Atoms :=
  match py_index (length (atoms a)) i with
  | Some k => Some (set_atoms (alter (set_tag t) k (atoms a)) a)
  | None => None
  end.

End Ase.
Export Ase.

(** ** Tasks, payloads and the state of a run *)

Abbreviation pydict := (list (string * pyval)).

(** The task classes of this module, and [FindBulk] of
    [gaspy.tasks.calculation_finders], which [GenerateSlabs] requires. A
    value of this type is a task instance with its parameters bound. *)
Inductive Task : Type :=
| GenerateGas (gas_name : string)
| GenerateBulk (mpid : string)
| GenerateSlabs (mpid : string) (miller_indices : list Z)
    (slab_generator_settings get_slab_settings : pydict)
| GenerateAdsorptionSites (mpid : string) (miller_indices : list Z)
    (slab_generator_settings get_slab_settings : pydict) (min_xy : float)
| FindBulk (mpid : string).

(** What a task pickles: one document, or a list of documents. *)
Inductive payload : Type :=
| PDoc (d : doc)
| PDocs (ds : list doc).

(** The files under [GASDB_PATH]: those being written under a temporary
    name, keyed by the path they are meant for, and those at their final
    path. *)
Record OutputStore : Type := mkStore
  { staging : gmap string payload;
    committed : gmap string payload }.

(** The state a task runs in: the heap of [ase.Atoms] objects and the
    file system. An [ase.Atoms] object is mutable and is passed by
    reference. A reference is the position of the object in the heap;
    creating an object appends it, so references handed out earlier stay
    valid. *)
Record World : Type := mkWorld
  { heap : list Atoms;
    fs : OutputStore }.

Definition set_heap (h : list Atoms) (w : World) : World :=
  {| heap := h; fs := fs w |}.

Definition set_fs (f : OutputStore) (w : World) : World :=
  {| heap := heap w; fs := f |}.

(** ** Computations with state and exceptions

    A computation returns a value or raises, and leaves a state behind in
    both cases. [InvalidReference] is the outcome of following a reference
    that was never handed out; Python has no such outcome, and the theorems
    show that the modelled code never reaches it. *)

Module Run.

Definition ref : Type := nat.
Definition M (A : Type) : Type := World -> result A * World.

Definition ret {A} (a : A) : M A := fun w => (ok a, w).

Definition bind {A B} (m : M A) (k : A -> M B) : M B :=
  fun w => match m w with
           | (inl e, w') => (inl e, w')
           | (inr a, w') => k a w'
           end.

Definition throw {A} (e : exn) : M A := fun w => (raise e, w).

Definition lift {A} (r : result A) : M A := fun w => (r, w).

(** A newly created object. *)
Definition new (a : Atoms) : M ref :=
  fun w => (ok (length (heap w)), set_heap (heap w ++ [a]) w).

Definition get (r : ref) : M Atoms :=
  fun w => match heap w !! r with
           | Some a => (ok a, w)
           | None => (raise InvalidReference, w)
           end.

(** In-place update of the object behind [r]. *)
Definition modify (r : ref) (f : Atoms -> Atoms) : M unit :=
  fun w => match heap w !! r with
           | Some a => (ok tt, set_heap (<[r := f a]> (heap w)) w)
           | None => (raise InvalidReference, w)
           end.

(** [atoms.translate(d)] *)
Definition translate (r : ref) (d : vec3) : M unit :=
  modify r (Ase.translate d).

(** [atoms.copy()]: a new object with the same contents. *)
Definition copy (r : ref) : M ref :=
  bind (get r) new.

(** [a + b]: [Atoms.__add__] copies [a] and extends the copy with [b]. *)
Definition add (ra rb : ref) : M ref :=
  bind (copy ra) (fun rc =>
  bind (get rb) (fun b =>
  bind (modify rc (fun c => Ase.extend c b)) (fun _ =>
  ret rc))).

(** [atoms[i].tag = t]: the [Atom] returned by indexing is a view of the
    [Atoms] object, so the assignment writes into that object. *)
Definition setitem_tag (r : ref) (i : Z) (t : Z) : M unit :=
  bind (get r) (fun a =>
  match Ase.set_tag_at i t a with
  | Some a' => modify r (fun _ => a')
  | None => throw IndexError
  end).

(** A [for] loop that updates a loop-carried value. *)
Fixpoint for_ {A S} (body : S -> A -> M S) (l : list A) (s : S) : M S :=
  match l with
  | [] => ret s
  | x :: l' => bind (body s x) (for_ body l')
  end.

(** [pickle.load(open(path, 'rb'))] *)
Definition pickle_load (path : string) : M payload :=
  fun w => match committed (fs w) !! path with
           | Some p => (ok p, w)
           | None => (raise (FileNotFoundError path), w)
           end.

End Run.

Notation "'letM' x := m 'in' k" := (Run.bind m (fun x => k))
  (at level 10, x pattern, m at level 100, k at level 200).

(** ** External collaborators

    The geometry and chemistry routines ([gaspy.atoms_operators]), the
    document codec ([gaspy.mongo]), pymatgen, the Materials Project client,
    luigi and the configuration are not part of this module. They are taken
    as an interface: functions of their arguments that return new values
    and leave their arguments untouched. *)

Class Collaborators : Type := {
  (** [pymatgen.Structure] and the [shift] attribute of a slab *)
  Structure : Type;
  shift : Structure -> float;
  AseAtomsAdaptor_get_atoms : Structure -> Atoms;
  (** [gaspy.atoms_operators] *)
  make_slabs_from_bulk_atoms : Atoms -> list Z -> pydict -> pydict -> list Structure;
  orient_atoms_upwards : Atoms -> Atoms;
  constrain_slab : Atoms -> Atoms;
  is_structure_invertible : Structure -> bool;
  flip_atoms : Atoms -> Atoms;
  tile_atoms : Atoms -> float -> float -> Atoms * (Z * Z);
  find_adsorption_sites : Atoms -> list vec3;
  (** [gaspy.mongo] *)
  make_doc_from_atoms : Atoms -> doc;
  make_atoms_from_doc : doc -> Atoms;
  (** [ase.collections.g2]: indexing builds a new molecule, or raises
      [KeyError] for an unknown name *)
  g2 : string -> option Atoms;
  (** [MPRester(api_key).get_structure_by_material_id(mpid)] *)
  get_structure_by_material_id : string -> string -> result Structure;
  (** [gaspy.utils.read_rc] *)
  read_rc : string -> string;
  (** [gaspy.defaults] *)
  SLAB_SETTINGS_slab_generator_settings : pydict;
  SLAB_SETTINGS_get_slab_settings : pydict;
  ADSLAB_SETTINGS_min_xy : float;
  (** luigi's [task_id_str]: the file name made of a task family and its
      parameters *)
  task_id_str : string -> pydict -> string;
  (** [gaspy.tasks.calculation_finders.FindBulk]: what it requires, and
      the bulk document it finds *)
  FindBulk_requires : string -> list Task;
  find_bulk : string -> result doc
}.

(** ** Task identity *)

Module Identity.

(** Dictionary items are ordered by key, lexicographically. *)
Definition key_le (a b : string * pyval) : Prop :=
  String.leb a.1 b.1 = true.

#[global] Instance key_le_dec a b : Decision (key_le a b).
Proof. unfold key_le. apply _. Defined.

(** Modelled from the spec: the canonical form of a parameter value
    (luigi's parameter classes, which do this, are not under [src/]).
    Sequences are normalized to tuples and mappings are frozen with their
    items sorted by key, at every depth. *)
Fixpoint canon (v : pyval) : pyval :=
  match v with
  | VTuple l => VTuple (map canon l)
  | VList l => VTuple (map canon l)
  | VDict items =>
      VDict (merge_sort key_le (map (fun kv => let '(k, x) := kv in (k, canon x)) items))
  | _ => v
  end.

Definition canon_params (kwargs : pydict) : pydict :=
  map (fun kv => (kv.1, canon kv.2)) kwargs.

Record Identity : Type := mkIdentity
  { family : string;
    params : pydict }.

Definition task_family (self : Task) : string :=
  match self with
  | GenerateGas _ => "GenerateGas"
  | GenerateBulk _ => "GenerateBulk"
  | GenerateSlabs _ _ _ _ => "GenerateSlabs"
  | GenerateAdsorptionSites _ _ _ _ _ => "GenerateAdsorptionSites"
  | FindBulk _ => "FindBulk"
  end.

(** The parameters of a task, by name, in the order the class declares
    them. *)
Definition param_kwargs (self : Task) : pydict :=
  match self with
  | GenerateGas gas_name => [("gas_name", VStr gas_name)]
  | GenerateBulk mpid => [("mpid", VStr mpid)]
  | GenerateSlabs mpid miller_indices sgs gss =>
      [("mpid", VStr mpid);
       ("miller_indices", VTuple (map VInt miller_indices));
       ("slab_generator_settings", VDict sgs);
       ("get_slab_settings", VDict gss)]
  | GenerateAdsorptionSites mpid miller_indices sgs gss min_xy =>
      [("mpid", VStr mpid);
       ("miller_indices", VTuple (map VInt miller_indices));
       ("slab_generator_settings", VDict sgs);
       ("get_slab_settings", VDict gss);
       ("min_xy", VFloat min_xy)]
  | FindBulk mpid => [("mpid", VStr mpid)]
  end.

(** Modelled from the spec: the identity of a task (luigi's [task_id] is
    not under [src/]) is its type name with its parameters in canonical
    form. *)
Definition make_identity (fam : string) (kwargs : pydict) : Identity :=
  {| family := fam; params := canon_params kwargs |}.

Definition identity (self : Task) : Identity :=
  make_identity (task_family self) (param_kwargs self).

(** Equality of parameter values as Python compares containers: item by
    item for sequences, and whatever the insertion order of the items for
    dictionaries, whose keys are distinct. *)
#[local] Unset Elimination Schemes.
Inductive pyeq : pyval -> pyval -> Prop :=
| pyeq_None : pyeq VNone VNone
| pyeq_Bool b : pyeq (VBool b) (VBool b)
| pyeq_Int z : pyeq (VInt z) (VInt z)
| pyeq_Float x : pyeq (VFloat x) (VFloat x)
| pyeq_Str s : pyeq (VStr s) (VStr s)
| pyeq_Tuple l1 l2 : Forall2 pyeq l1 l2 -> pyeq (VTuple l1) (VTuple l2)
| pyeq_List l1 l2 : Forall2 pyeq l1 l2 -> pyeq (VList l1) (VList l2)
| pyeq_Dict d1 d2 d2' :
    NoDup (d1.*1) ->
    Forall2 (fun a b => a.1 = b.1 /\ pyeq a.2 b.2) d1 d2' ->
    d2' ≡ₚ d2 ->
    pyeq (VDict d1) (VDict d2).
#[local] Set Elimination Schemes.

(** Equality of two sets of named parameters. *)
Definition kwargs_eq (k1 k2 : pydict) : Prop :=
  Forall2 (fun a b => a.1 = b.1 /\ pyeq a.2 b.2) k1 k2.

End Identity.
Export Identity.

(** ** The tasks *)

Section Tasks.
Context `{Collaborators}.

(** *** Output locations and the writing of outputs *)

Definition GASDB_PATH : string := read_rc "gasdb_path".

(** luigi's [task_id] of a task instance. *)
Definition task_id (self : Task) : string :=
  task_id_str (family (identity self)) (params (identity self)).

(** Modelled from the spec: [make_task_output_object] of [gaspy.tasks.core]
    is not under [src/]. The location of an output is a function of the
    identity of the task alone; the layout of the path is the one this
    module spells out for its pickles,
    [GASDB_PATH/pickles/<type name>/<task_id>.pkl]. *)
Definition make_task_output_object (self : Task) : string :=
  GASDB_PATH +:+ "/pickles/" +:+ task_family self +:+ "/" +:+ task_id self +:+ ".pkl".

Definition output (self : Task) : string := make_task_output_object self.

(** Modelled from the spec: does a complete output exist at this path. *)
Definition exists_ (f : OutputStore) (path : string) : bool :=
  bool_decide (is_Some (committed f !! path)).

(** Modelled from the spec: the first half of a write. The payload goes
    to a temporary file next to [path]; nothing is visible at [path]. *)
Definition stage (path : string) (p : payload) : Run.M unit :=
  fun w => (ok tt,
            set_fs {| staging := <[path := p]> (staging (fs w));
                      committed := committed (fs w) |} w).

(** Modelled from the spec: the second half of a write. The temporary
    file is renamed to [path] in one step. *)
Definition publish (path : string) : Run.M unit :=
  fun w => match staging (fs w) !! path with
           | Some p =>
               (ok tt,
                set_fs {| staging := delete path (staging (fs w));
                          committed := <[path := p]> (committed (fs w)) |} w)
           | None => (raise (FileNotFoundError path), w)
           end.

(** Modelled from the spec: [save_task_output] of [gaspy.tasks.core] is
    not under [src/]. The output is pickled to a temporary file, which is
    then published at the output location of the task. *)
Definition save_task_output (task : Task) (out : payload) : Run.M unit :=
  letM _ := stage (output task) out in
  publish (output task).

(** *** Construction, with the defaults of the parameters *)

Definition GenerateSlabs_init (mpid : string) (miller_indices : list Z)
    (slab_generator_settings get_slab_settings : option pydict) : Task :=
  GenerateSlabs mpid miller_indices
    (default SLAB_SETTINGS_slab_generator_settings slab_generator_settings)
    (default SLAB_SETTINGS_get_slab_settings get_slab_settings).

Definition GenerateAdsorptionSites_init (mpid : string) (miller_indices : list Z)
    (slab_generator_settings get_slab_settings : option pydict)
    (min_xy : option float) : Task :=
  GenerateAdsorptionSites mpid miller_indices
    (default SLAB_SETTINGS_slab_generator_settings slab_generator_settings)
    (default SLAB_SETTINGS_get_slab_settings get_slab_settings)
    (default ADSLAB_SETTINGS_min_xy min_xy).

Definition FindBulk_init (mpid : string) : Task := FindBulk mpid.

(** *** [requires] *)

Definition GenerateSlabs_requires (mpid : string) : Task :=
  FindBulk_init mpid.

Definition GenerateAdsorptionSites_requires (mpid : string)
    (miller_indices : list Z) (slab_generator_settings get_slab_settings : pydict) : Task :=
  GenerateSlabs_init mpid miller_indices
    (Some slab_generator_settings) (Some get_slab_settings).

(** luigi's [Task.deps]: what [requires] returns, flattened to a list. A
    task class that does not define [requires] requires nothing. *)
Definition deps (self : Task) : list Task :=
  match self with
  | GenerateGas _ => []
  | GenerateBulk _ => []
  | GenerateSlabs mpid _ _ _ => [GenerateSlabs_requires mpid]
  | GenerateAdsorptionSites mpid miller_indices sgs gss _ =>
      [GenerateAdsorptionSites_requires mpid miller_indices sgs gss]
  | FindBulk mpid => FindBulk_requires mpid
  end.

(** *** [GenerateGas.run] *)

Definition GenerateGas_run (self : Task) (gas_name : string) : Run.M unit :=
  letM atoms := match g2 gas_name with
                | Some molecule => Run.new molecule
                | None => Run.throw (KeyError gas_name)
                end in
  letM _ := Run.modify atoms (Ase.translate (vscalar 10%float)) in
  letM _ := Run.modify atoms (set_cell (cell_of_lengths 20%float 20%float 20%float)) in
  letM _ := Run.modify atoms (set_pbc (true, true, true)) in
  letM a := Run.get atoms in
  let doc0 := make_doc_from_atoms a in
  save_task_output self (PDoc doc0).

(** *** [GenerateBulk.run] *)

Definition GenerateBulk_run (self : Task) (mpid : string) : Run.M unit :=
  letM structure :=
    Run.lift (get_structure_by_material_id (read_rc "matproj_api_key") mpid) in
  let atoms := AseAtomsAdaptor_get_atoms structure in
  let doc0 := make_doc_from_atoms atoms in
  save_task_output self (PDoc doc0).

(** *** [_make_slab_docs_from_structs] *)

(** The body of the loop: [docs] is the list built so far, [struct] the
    current structure. *)
Definition slab_docs_step (docs : list doc) (struct : Structure) : list doc :=
  let atoms := AseAtomsAdaptor_get_atoms struct in
  let atoms := orient_atoms_upwards atoms in
  let atoms_constrained := constrain_slab atoms in
  let doc0 := make_doc_from_atoms atoms_constrained in
  let doc0 := <["shift" := VFloat (shift struct)]> doc0 in
  let doc0 := <["top" := VBool true]> doc0 in
  let docs := docs ++ [doc0] in
  if is_structure_invertible struct then
    let atoms_flipped := flip_atoms atoms in
    let atoms_flipped_constrained := constrain_slab atoms_flipped in
    let doc_flipped := make_doc_from_atoms atoms_flipped_constrained in
    let doc_flipped := <["shift" := VFloat (shift struct)]> doc_flipped in
    let doc_flipped := <["top" := VBool false]> doc_flipped in
    docs ++ [doc_flipped]
  else docs.

Definition _make_slab_docs_from_structs (slab_structures : list Structure) : list doc :=
  fold_left slab_docs_step slab_structures [].

(** *** [GenerateSlabs.run] *)

Definition GenerateSlabs_run (self : Task) (mpid : string) (miller_indices : list Z)
    (slab_generator_settings get_slab_settings : pydict) : Run.M unit :=
  letM pickled := Run.pickle_load (output (GenerateSlabs_requires mpid)) in
  letM bulk_doc := match pickled with
                   | PDoc d => Run.ret d
                   | PDocs _ => Run.throw TypeError
                   end in
  let bulk_atoms := make_atoms_from_doc bulk_doc in
  let slab_structs :=
    make_slabs_from_bulk_atoms bulk_atoms miller_indices
      slab_generator_settings get_slab_settings in
  let slab_docs := _make_slab_docs_from_structs slab_structs in
  save_task_output self (PDocs slab_docs).

(** *** [GenerateAdsorptionSites.run] *)

Definition repeat_value (slab_repeat : Z * Z) : pyval :=
  VTuple [VInt slab_repeat.1; VInt slab_repeat.2].

(** A site is a [numpy] array of three floats. *)
Definition site_value (site : vec3) : pyval :=
  let '(x, y, z) := site in VList [VFloat x; VFloat y; VFloat z].

(** The body of the inner loop: places a uranium atom on [site]. *)
Definition place_marker (slab_atoms_tiled : Run.ref) (slab_repeat : Z * Z)
    (docs_adslabs : list doc) (site : vec3) : Run.M (list doc) :=
  letM adsorbate := Run.new (Atoms_init "U") in
  letM _ := Run.translate adsorbate site in
  letM slab_copy := Run.copy slab_atoms_tiled in
  letM adslab_atoms := Run.add slab_copy adsorbate in
  letM _ := Run.setitem_tag adslab_atoms (-1) 1 in
  letM a := Run.get adslab_atoms in
  let doc0 := make_doc_from_atoms a in
  let doc0 := <["slab_repeat" := repeat_value slab_repeat]> doc0 in
  let doc0 := <["adsorption_site" := site_value site]> doc0 in
  Run.ret (docs_adslabs ++ [doc0]).

(** The body of the outer loop: tiles one slab and marks its sites. *)
Definition mark_sites_of_slab (min_xy : float) (docs_adslabs : list doc)
    (slab_doc : doc) : Run.M (list doc) :=
  let slab_atoms := make_atoms_from_doc slab_doc in
  let '(tiled, slab_repeat) := tile_atoms slab_atoms min_xy min_xy in
  letM slab_atoms_tiled := Run.new tiled in
  letM t := Run.get slab_atoms_tiled in
  let sites := find_adsorption_sites t in
  Run.for_ (place_marker slab_atoms_tiled slab_repeat) sites docs_adslabs.

(** When the pickle holds a single document instead of a list, the outer
    loop iterates over the keys of that dictionary, which are strings: an
    empty dictionary gives no pass of the loop, and otherwise
    [make_atoms_from_doc] is handed a string in the first pass, which is
    taken to raise [TypeError]. *)
Definition GenerateAdsorptionSites_run (self : Task) (mpid : string)
    (miller_indices : list Z) (slab_generator_settings get_slab_settings : pydict)
    (min_xy : float) : Run.M unit :=
  letM pickled :=
    Run.pickle_load
      (output (GenerateAdsorptionSites_requires mpid miller_indices
                 slab_generator_settings get_slab_settings)) in
  letM slab_docs := match pickled with
                    | PDocs ds => Run.ret ds
                    | PDoc d =>
                        match map_to_list d with
                        | [] => Run.ret []
                        | _ :: _ => Run.throw TypeError
                        end
                    end in
  letM docs_adslabs := Run.for_ (mark_sites_of_slab min_xy) slab_docs [] in
  save_task_output self (PDocs docs_adslabs).

(** Modelled from the spec: [FindBulk.run] of
    [gaspy.tasks.calculation_finders] is not under [src/]. As every task,
    it persists what it computes at its own output location. *)
Definition FindBulk_run (self : Task) (mpid : string) : Run.M unit :=
  letM bulk_doc := Run.lift (find_bulk mpid) in
  save_task_output self (PDoc bulk_doc).

(** [self.run()] *)
Definition run (self : Task) : Run.M unit :=
  match self with
  | GenerateGas gas_name => GenerateGas_run self gas_name
  | GenerateBulk mpid => GenerateBulk_run self mpid
  | GenerateSlabs mpid miller_indices sgs gss =>
      GenerateSlabs_run self mpid miller_indices sgs gss
  | GenerateAdsorptionSites mpid miller_indices sgs gss min_xy =>
      GenerateAdsorptionSites_run self mpid miller_indices sgs gss min_xy
  | FindBulk mpid => FindBulk_run self mpid
  end.

(** *** What the loops are expected to build

    These definitions are not translated from the code: they spell out
    the documents that the theorems below show the loops to build. *)

Definition slab_atoms_of (struct : Structure) : Atoms :=
  orient_atoms_upwards (AseAtomsAdaptor_get_atoms struct).

Definition annotate_slab (struct : Structure) (top : bool) (d : doc) : doc :=
  <["top" := VBool top]> (<["shift" := VFloat (shift struct)]> d).

(** The document of a structure as it was enumerated. *)
Definition top_doc (struct : Structure) : doc :=
  annotate_slab struct true
    (make_doc_from_atoms (constrain_slab (slab_atoms_of struct))).

(** The document of the mirror image of a structure. *)
Definition flipped_doc (struct : Structure) : doc :=
  annotate_slab struct false
    (make_doc_from_atoms (constrain_slab (flip_atoms (slab_atoms_of struct)))).

Definition slab_group (struct : Structure) : list doc :=
  if is_structure_invertible struct
  then [top_doc struct; flipped_doc struct]
  else [top_doc struct].

(** The uranium atom that marks [site]. *)
Definition marker (site : vec3) : Atom :=
  {| symbol := "U"; position := vadd vzero site; tag := 1 |}.

(** The tiled slab with the marker of [site] as its last atom. *)
Definition adslab_of (tiled : Atoms) (site : vec3) : Atoms :=
  set_atoms (atoms tiled ++ [marker site]) tiled.

Definition annotate_site (slab_repeat : Z * Z) (site : vec3) (d : doc) : doc :=
  <["adsorption_site" := site_value site]>
    (<["slab_repeat" := repeat_value slab_repeat]> d).

Definition adslab_doc (tiled : Atoms) (slab_repeat : Z * Z) (site : vec3) : doc :=
  annotate_site slab_repeat site (make_doc_from_atoms (adslab_of tiled site)).

(** The tiled slab of a slab document, its repeat factors and its sites. *)
Definition tiled_of (min_xy : float) (slab_doc : doc) : Atoms :=
  (tile_atoms (make_atoms_from_doc slab_doc) min_xy min_xy).1.

Definition repeat_of (min_xy : float) (slab_doc : doc) : Z * Z :=
  (tile_atoms (make_atoms_from_doc slab_doc) min_xy min_xy).2.

Definition sites_of (min_xy : float) (slab_doc : doc) : list vec3 :=
  find_adsorption_sites (tiled_of min_xy slab_doc).

Definition adslab_docs_of (min_xy : float) (slab_doc : doc) : list doc :=
  map (adslab_doc (tiled_of min_xy slab_doc) (repeat_of min_xy slab_doc))
      (sites_of min_xy slab_doc).

(** The molecule that [GenerateGas] documents. *)
Definition boxed_molecule (molecule : Atoms) : Atoms :=
  {| atoms := map (fun x => set_position
                     (vadd (position x) (10%float, 10%float, 10%float)) x)
                  (atoms molecule);
     cell := ((20%float, 0%float, 0%float),
              (0%float, 20%float, 0%float),
              (0%float, 0%float, 20%float));
     pbc := (true, true, true);
     constraints := constraints molecule |}.

(** The pickle that [run] loads: the output of the one task that [self]
    requires, when it is there. *)
Definition pickled_input (self : Task) (f : OutputStore) : option payload :=
  match deps self with
  | [d] => committed f !! output d
  | _ => None
  end.

(** What [run] is expected to hand to [save_task_output], or the exception
    it is expected to raise, given the pickle it loads. *)
Definition computed (self : Task) (pickled : option payload) : result payload :=
  match self with
  | GenerateGas gas_name =>
      match g2 gas_name with
      | Some molecule => ok (PDoc (make_doc_from_atoms (boxed_molecule molecule)))
      | None => raise (KeyError gas_name)
      end
  | GenerateBulk mpid =>
      letE structure := get_structure_by_material_id (read_rc "matproj_api_key") mpid in
      ok (PDoc (make_doc_from_atoms (AseAtomsAdaptor_get_atoms structure)))
  | GenerateSlabs mpid miller_indices sgs gss =>
      match pickled with
      | Some (PDoc bulk_doc) =>
          ok (PDocs (_make_slab_docs_from_structs
                       (make_slabs_from_bulk_atoms (make_atoms_from_doc bulk_doc)
                          miller_indices sgs gss)))
      | Some (PDocs _) => raise TypeError
      | None => raise (FileNotFoundError (output (GenerateSlabs_requires mpid)))
      end
  | GenerateAdsorptionSites mpid miller_indices sgs gss min_xy =>
      match pickled with
      | Some (PDocs slab_docs) =>
          ok (PDocs (concat (map (adslab_docs_of min_xy) slab_docs)))
      | Some (PDoc d) =>
          match map_to_list d with
          | [] => ok (PDocs [])
          | _ :: _ => raise TypeError
          end
      | None =>
          raise (FileNotFoundError
                   (output (GenerateAdsorptionSites_requires mpid miller_indices sgs gss)))
      end
  | FindBulk mpid =>
      letE bulk_doc := find_bulk mpid in
      ok (PDoc bulk_doc)
  end.

(** The file system after [out] was saved at [path]. *)
Definition saved (path : string) (out : payload) (f : OutputStore) : OutputStore :=
  {| staging := delete path (<[path := out]> (staging f));
     committed := <[path := out]> (committed f) |}.

(** The task classes that this module defines. *)
Definition defined_here (self : Task) : bool :=
  match self with
  | FindBulk _ => false
  | _ => true
  end.

End Tasks.

(** ** The resolver *)

Module Resolver.

Inductive status : Type := pending | running | done | failed.

Inductive graph_error : Type :=
| CyclicDependencyError (path : string)
| OutOfFuel.

(** The state of a resolver: the state of the process, the status of the
    task nodes by output location, and the log of the locations whose
    task was run, oldest first. *)
Record Scheduler : Type := mkScheduler
  { world : World;
    statuses : gmap string status;
    executed : list string }.

Section Resolver.
Context `{Collaborators}.

Fixpoint visit_all (visit : list Task -> Task -> graph_error + list Task)
    (ds : list Task) (order : list Task) : graph_error + list Task :=
  match ds with
  | [] => inr order
  | d :: ds' =>
      match visit order d with
      | inl e => inl e
      | inr order' => visit_all visit ds' order'
      end
  end.

(** Modelled from the spec: the dependency graph is built by calling
    [deps] on the requested task and recursing (luigi's scheduler is not
    under [src/]). [stack] holds the locations of the tasks being visited,
    [order] the nodes found so far, leaves first; a node already in
    [order] is not visited again, and a node on the stack closes a
    cycle. *)
Fixpoint visit (fuel : nat) (stack : list string) (order : list Task) (t : Task)
    : graph_error + list Task :=
  match fuel with
  | O => inl OutOfFuel
  | S fuel' =>
      let p := output t in
      if bool_decide (p ∈ stack) then inl (CyclicDependencyError p)
      else if bool_decide (p ∈ map output order) then inr order
      else
        match visit_all (visit fuel' (p :: stack)) (deps t) order with
        | inl e => inl e
        | inr order' => inr (order' ++ [t])
        end
  end.

Definition is_done (s : Scheduler) (t : Task) : bool :=
  match statuses s !! output t with
  | Some done => true
  | _ => false
  end.

Definition mark (p : string) (st : status) (s : Scheduler) : Scheduler :=
  {| world := world s; statuses := <[p := st]> (statuses s); executed := executed s |}.

(** Modelled from the spec: what the resolver does at one node. A node
    whose output exists is done without running; otherwise it runs once
    all its dependencies are done, and fails without running when one of
    them is not. *)
Definition step (s : Scheduler) (t : Task) : Scheduler :=
  let p := output t in
  if exists_ (fs (world s)) p then mark p done s
  else if forallb (is_done s) (deps t) then
    match run t (world s) with
    | (inr _, w') =>
        {| world := w'; statuses := <[p := done]> (statuses s);
           executed := executed s ++ [p] |}
    | (inl _, w') =>
        {| world := w'; statuses := <[p := failed]> (statuses s);
           executed := executed s ++ [p] |}
    end
  else mark p failed s.

(** Modelled from the spec: one resolve-and-run sequence on [root], in a
    process that starts in state [w]; [log] is the log of the runs before
    this one. *)
Definition resolve (fuel : nat) (root : Task) (w : World) (log : list string)
    : graph_error + Scheduler :=
  match visit fuel [] [] root with
  | inl e => inl e
  | inr order =>
      inr (fold_left step order {| world := w; statuses := ∅; executed := log |})
  end.

(** How many times the task at location [p] was run. *)
Definition invocations (p : string) (log : list string) : nat :=
  length (filter (fun q => q = p) log).

(** Every chain of dependencies that starts at [t] has at most [n]
    tasks, [t] included. *)
Fixpoint bounded (n : nat) (t : Task) : bool :=
  match n with
  | O => false
  | S n' => forallb (bounded n') (deps t)
  end.

(** [u] is [t] or a task that [t] depends on, directly or not. *)
Inductive reaches : Task -> Task -> Prop :=
| reaches_refl t : reaches t t
| reaches_step t d u : d ∈ deps t -> reaches d u -> reaches t u.

End Resolver.
End Resolver.

(** ** A small concrete set of collaborators

    One hydrogen molecule in the gas collection, one bulk in the remote
    database, slabs that are the bulk itself with two terminations (the
    first invertible, the second not), sites on top of every atom. The
    theorems are stated for every set of collaborators; this one shows
    that their hypotheses can be met. *)

Module Example.

Record Slab : Type := mkSlab
  { slab_atoms : Atoms;
    slab_shift : float;
    slab_invertible : bool }.

Definition no_cell : vec3 * vec3 * vec3 := (vzero, vzero, vzero).

Definition H2 : Atoms :=
  {| atoms := [ {| symbol := "H"; position := (0, 0, 0.375)%float; tag := 0 |};
                {| symbol := "H"; position := (0, 0, -0.375)%float; tag := 0 |} ];
     cell := no_cell; pbc := (false, false, false); constraints := [] |}.

Definition Cu : Atoms :=
  {| atoms := [ {| symbol := "Cu"; position := (0, 0, 0)%float; tag := 0 |} ];
     cell := cell_of_lengths 3.5%float 3.5%float 3.5%float;
     pbc := (true, true, true); constraints := [] |}.

Definition encode_atom (x : Atom) : pyval :=
  let '(px, py, pz) := position x in
  VTuple [VStr (symbol x); VFloat px; VFloat py; VFloat pz; VInt (tag x)].

Definition decode_atom (v : pyval) : option Atom :=
  match v with
  | VTuple [VStr s; VFloat px; VFloat py; VFloat pz; VInt t] =>
      Some {| symbol := s; position := (px, py, pz); tag := t |}
  | _ => None
  end.

Definition encode (a : Atoms) : doc :=
  {[ "atoms" := VList (map encode_atom (atoms a)) ]}.

Definition decode (d : doc) : Atoms :=
  match d !! "atoms" with
  | Some (VList l) =>
      {| atoms := omap decode_atom l; cell := no_cell;
         pbc := (true, true, true); constraints := [] |}
  | _ => {| atoms := []; cell := no_cell; pbc := (false, false, false);
            constraints := [] |}
  end.

Definition mirror (a : Atoms) : Atoms :=
  set_atoms (map (fun x => set_position
                    (let '(px, py, pz) := position x in (px, py, PrimFloat.opp pz)) x)
                 (atoms a)) a.

Definition first_string (kwargs : pydict) : string :=
  match kwargs with
  | (_, VStr s) :: _ => s
  | _ => ""
  end.

Definition collaborators : Collaborators :=
  {| Structure := Slab;
     shift := slab_shift;
     AseAtomsAdaptor_get_atoms := slab_atoms;
     make_slabs_from_bulk_atoms := fun bulk _ _ _ =>
       [ {| slab_atoms := bulk; slab_shift := 0.25%float; slab_invertible := true |};
         {| slab_atoms := bulk; slab_shift := 0.75%float; slab_invertible := false |} ];
     orient_atoms_upwards := fun a => a;
     constrain_slab := fun a =>
       {| atoms := atoms a; cell := cell a; pbc := pbc a;
          constraints := [FixAtoms [0%nat]] |};
     is_structure_invertible := slab_invertible;
     flip_atoms := mirror;
     tile_atoms := fun a _ _ => (extend a a, (2, 1));
     find_adsorption_sites := fun a => map position (atoms a);
     make_doc_from_atoms := encode;
     make_atoms_from_doc := decode;
     g2 := fun name => if decide (name = "H2") then Some H2 else None;
     get_structure_by_material_id := fun _ mpid =>
       if decide (mpid = "mp-30")
       then ok {| slab_atoms := Cu; slab_shift := 0%float; slab_invertible := false |}
       else raise (RemoteLookupError mpid);
     read_rc := fun key => if decide (key = "gasdb_path") then "/gasdb" else "secret";
     SLAB_SETTINGS_slab_generator_settings :=
       [("min_slab_size", VFloat 7%float); ("lll_reduce", VBool false)];
     SLAB_SETTINGS_get_slab_settings := [("tol", VFloat 0.25%float)];
     ADSLAB_SETTINGS_min_xy := 4.5%float;
     task_id_str := fun fam kwargs => fam +:+ "_" +:+ first_string kwargs;
     FindBulk_requires := fun _ => [];
     find_bulk := fun mpid =>
       if decide (mpid = "mp-30") then ok (encode Cu)
       else raise (RemoteLookupError mpid) |}.

Definition empty_world : World :=
  {| heap := []; fs := {| staging := ∅; committed := ∅ |} |}.

#[local] Existing Instance collaborators.

Definition slab_settings : pydict :=
  [("min_slab_size", VFloat 7%float); ("lll_reduce", VBool false)].

Definition slab_settings_reordered : pydict :=
  [("lll_reduce", VBool false); ("min_slab_size", VFloat 7%float)].

Definition slabs_task : Task :=
  GenerateSlabs "mp-30" [1; 1; 1] slab_settings [("tol", VFloat 0.25%float)].

Definition slabs_task_reordered : Task :=
  GenerateSlabs "mp-30" [1; 1; 1] slab_settings_reordered [("tol", VFloat 0.25%float)].

Definition sites_task : Task :=
  GenerateAdsorptionSites "mp-30" [1; 1; 1] slab_settings
    [("tol", VFloat 0.25%float)] 4.5%float.

(** A state in which the bulk was found, and another one with the same
    bulk pickle, one more file and an object on the heap. *)
Definition bulk_found : World :=
  {| heap := [];
     fs := {| staging := ∅;
              committed := {[ output (FindBulk "mp-30") := PDoc (encode Cu) ]} |} |}.

Definition bulk_found_elsewhere : World :=
  {| heap := [H2];
     fs := {| staging := ∅;
              committed := <[ output (GenerateGas "H2") := PDoc (encode H2) ]>
                             {[ output (FindBulk "mp-30") := PDoc (encode Cu) ]} |} |}.

(** A state in which the slabs of the bulk were made. *)
Definition slab_docs_made : list doc :=
  _make_slab_docs_from_structs
    (make_slabs_from_bulk_atoms (decode (encode Cu)) [1; 1; 1] slab_settings
       [("tol", VFloat 0.25%float)]).

Definition slabs_made : World :=
  {| heap := [];
     fs := {| staging := ∅;
              committed := {[ output slabs_task := PDocs slab_docs_made ]} |} |}.

(** Two slabs, the first invertible and the second not. *)
Definition slab_up : Slab :=
  {| slab_atoms := Cu; slab_shift := 0.25%float; slab_invertible := true |}.

Definition slab_flat : Slab :=
  {| slab_atoms := Cu; slab_shift := 0.75%float; slab_invertible := false |}.

(** The resolver after one resolve-and-run sequence on [sites_task],
    started with no files. *)
Definition first_run : Resolver.Scheduler :=
  match Resolver.resolve 5 sites_task empty_world [] with
  | inr s => s
  | inl _ => {| Resolver.world := empty_world; Resolver.statuses := ∅;
                Resolver.executed := [] |}
  end.

End Example.

(** * Properties *)

(** ** Slab documents *)

Section SlabDocsFacts.
Context `{Collaborators}.

Lemma slab_docs_step_group docs struct :
  slab_docs_step docs struct = docs ++ slab_group struct.
Proof.
  unfold slab_docs_step, slab_group, top_doc, flipped_doc, annotate_slab, slab_atoms_of.
  destruct (is_structure_invertible struct); [|done].
  by rewrite <- app_assoc.
Qed.

Lemma fold_slab_docs_step structs docs :
  fold_left slab_docs_step structs docs = docs ++ concat (map slab_group structs).
Proof.
  revert docs. induction structs as [|s structs IH]; intros docs; simpl.
  - by rewrite app_nil_r.
  - rewrite IH, slab_docs_step_group. by rewrite <- app_assoc.
Qed.

Lemma make_slab_docs_groups structs :
  _make_slab_docs_from_structs structs = concat (map slab_group structs).
Proof. unfold _make_slab_docs_from_structs. by rewrite fold_slab_docs_step. Qed.

Lemma make_slab_docs_app l1 l2 :
  _make_slab_docs_from_structs (l1 ++ l2) =
  _make_slab_docs_from_structs l1 ++ _make_slab_docs_from_structs l2.
Proof. rewrite !make_slab_docs_groups, map_app. apply concat_app. Qed.

Lemma annotate_slab_top struct b d :
  annotate_slab struct b d !! "top" = Some (VBool b).
Proof. unfold annotate_slab. by rewrite lookup_insert_eq. Qed.

Lemma annotate_slab_shift struct b d :
  annotate_slab struct b d !! "shift" = Some (VFloat (shift struct)).
Proof.
  unfold annotate_slab. rewrite lookup_insert_ne by done.
  by rewrite lookup_insert_eq.
Qed.

Lemma annotate_slab_other struct b d k :
  k ≠ "shift" -> k ≠ "top" -> annotate_slab struct b d !! k = d !! k.
Proof.
  intros Hs Ht. unfold annotate_slab.
  rewrite lookup_insert_ne by done. by rewrite lookup_insert_ne.
Qed.

(** C1. Slab-document generation emits one group of documents per input
    structure. The group of a structure whose invertibility check succeeds
    is exactly two documents: both carry the [shift] of the structure, the
    first has [top] true and the second [top] false, and apart from these
    two fields the first is the document of the constrained slab and the
    second the document of the constrained flipped slab. The group of a
    structure whose check fails is exactly one document, with [top] true. *)
Theorem slab_docs_fan_out (slab_structures : list Structure) :
  exists groups : list (list doc),
    _make_slab_docs_from_structs slab_structures = concat groups /\
    Forall2 (fun struct group =>
      let atoms := orient_atoms_upwards (AseAtomsAdaptor_get_atoms struct) in
      exists d_top : doc,
        d_top !! "top" = Some (VBool true) /\
        d_top !! "shift" = Some (VFloat (shift struct)) /\
        (forall k, k ≠ "shift" -> k ≠ "top" ->
           d_top !! k = make_doc_from_atoms (constrain_slab atoms) !! k) /\
        if is_structure_invertible struct then
          exists d_flipped : doc,
            group = [d_top; d_flipped] /\
            d_flipped !! "top" = Some (VBool false) /\
            d_flipped !! "shift" = Some (VFloat (shift struct)) /\
            (forall k, k ≠ "shift" -> k ≠ "top" ->
               d_flipped !! k =
               make_doc_from_atoms (constrain_slab (flip_atoms atoms)) !! k)
        else group = [d_top])
      slab_structures groups.
Proof.
  exists (map slab_group slab_structures). split.
  - apply make_slab_docs_groups.
  - induction slab_structures as [|s l IH]; simpl; constructor; [|exact IH].
    exists (top_doc s). unfold top_doc, slab_atoms_of.
    rewrite annotate_slab_top, annotate_slab_shift.
    repeat split.
    + intros k Hs Ht. by apply annotate_slab_other.
    + unfold slab_group. destruct (is_structure_invertible s); [|done].
      exists (flipped_doc s). unfold flipped_doc, top_doc, slab_atoms_of.
      rewrite annotate_slab_top, annotate_slab_shift.
      repeat split. intros k Hs Ht. by apply annotate_slab_other.
Qed.

(** C8. The output keeps the order of the input structures: the documents
    of the structures before a given one come first, then the documents of
    that structure, then those of the structures after it. The first
    document of a structure is the one with [top] true; when the structure
    is invertible, the document that immediately follows it is its flipped
    counterpart, with [top] false. *)
Theorem slab_docs_order (before after : list Structure) (struct : Structure) :
  let out := _make_slab_docs_from_structs (before ++ struct :: after) in
  let i := length (_make_slab_docs_from_structs before) in
  let n := if is_structure_invertible struct then 2%nat else 1%nat in
  let atoms := orient_atoms_upwards (AseAtomsAdaptor_get_atoms struct) in
  let d_top :=
    <["top" := VBool true]>
      (<["shift" := VFloat (shift struct)]>
         (make_doc_from_atoms (constrain_slab atoms))) in
  let d_flipped :=
    <["top" := VBool false]>
      (<["shift" := VFloat (shift struct)]>
         (make_doc_from_atoms (constrain_slab (flip_atoms atoms)))) in
  take i out = _make_slab_docs_from_structs before /\
  drop (i + n) out = _make_slab_docs_from_structs after /\
  out !! i = Some d_top /\
  (if is_structure_invertible struct then out !! S i = Some d_flipped else True).
Proof.
  intros out i n atoms d_top d_flipped.
  change d_top with (top_doc struct). change d_flipped with (flipped_doc struct).
  subst out i n.
  change (before ++ struct :: after) with (before ++ [struct] ++ after).
  rewrite !make_slab_docs_app.
  set (b := _make_slab_docs_from_structs before).
  set (a := _make_slab_docs_from_structs after).
  assert (Hg : _make_slab_docs_from_structs [struct] = slab_group struct).
  { rewrite make_slab_docs_groups. simpl. apply app_nil_r. }
  rewrite Hg. unfold slab_group.
  split; [by rewrite take_app_length|].
  destruct (is_structure_invertible struct); simpl.
  - split; [|split].
    + by rewrite drop_app_add'.
    + rewrite lookup_app_r by lia. by rewrite Nat.sub_diag.
    + rewrite lookup_app_r by lia.
      by replace (S (length b) - length b)%nat with 1%nat by lia.
  - split; [|split; [|done]].
    + by rewrite drop_app_add'.
    + rewrite lookup_app_r by lia. by rewrite Nat.sub_diag.
Qed.

End SlabDocsFacts.

(** ** Objects on the heap *)

Section RunFacts.

Lemma bind_ok {A B} (m : Run.M A) (k : A -> Run.M B) w a w' :
  m w = (inr a, w') -> Run.bind m k w = k a w'.
Proof. unfold Run.bind. by intros ->. Qed.

Lemma bind_raise {A B} (m : Run.M A) (k : A -> Run.M B) w e w' :
  m w = (inl e, w') -> Run.bind m k w = (inl e, w').
Proof. unfold Run.bind. by intros ->. Qed.

Lemma get_ok r a w : heap w !! r = Some a -> Run.get r w = (inr a, w).
Proof. unfold Run.get. by intros ->. Qed.

Lemma modify_ok r f a w :
  heap w !! r = Some a ->
  Run.modify r f w = (inr tt, set_heap (<[r := f a]> (heap w)) w).
Proof. unfold Run.modify. by intros ->. Qed.

Lemma copy_ok r a w :
  heap w !! r = Some a ->
  Run.copy r w = (inr (length (heap w)), set_heap (heap w ++ [a]) w).
Proof. intros Hr. unfold Run.copy. by rewrite (bind_ok _ _ _ _ _ (get_ok _ _ _ Hr)). Qed.

Lemma add_ok ra rb a b w :
  heap w !! ra = Some a -> heap w !! rb = Some b ->
  Run.add ra rb w = (inr (length (heap w)), set_heap (heap w ++ [extend a b]) w).
Proof.
  intros Ha Hb. unfold Run.add.
  rewrite (bind_ok _ _ _ _ _ (copy_ok _ _ _ Ha)).
  set (w1 := set_heap (heap w ++ [a]) w).
  assert (Hb1 : heap w1 !! rb = Some b) by (by apply lookup_app_l_Some).
  rewrite (bind_ok _ _ _ _ _ (get_ok _ _ _ Hb1)).
  assert (Hc1 : heap w1 !! length (heap w) = Some a).
  { simpl. rewrite lookup_app_r by lia. by rewrite Nat.sub_diag. }
  rewrite (bind_ok _ _ _ _ _ (modify_ok _ _ _ _ Hc1)).
  unfold Run.ret, set_heap. simpl. do 3 f_equal.
  rewrite insert_app_r_alt by lia. by rewrite Nat.sub_diag.
Qed.

Lemma py_index_last n : py_index (S n) (-1) = Some n.
Proof.
  unfold py_index.
  replace (0 <=? -1) with false by done. simpl.
  replace (- Z.of_nat (S n) <=? -1) with true by (symmetry; apply Z.leb_le; lia).
  simpl. f_equal. lia.
Qed.

Lemma set_tag_last t a x :
  set_tag_at (-1) t (set_atoms (atoms a ++ [x]) a) =
  Some (set_atoms (atoms a ++ [set_tag t x]) a).
Proof.
  unfold set_tag_at. simpl. rewrite length_app. simpl.
  replace (length (atoms a) + 1)%nat with (S (length (atoms a))) by lia.
  rewrite py_index_last. unfold set_atoms. simpl. do 2 f_equal.
  rewrite alter_app_r_alt by lia. by rewrite Nat.sub_diag.
Qed.

Lemma setitem_tag_last r t a x w :
  heap w !! r = Some (set_atoms (atoms a ++ [x]) a) ->
  Run.setitem_tag r (-1) t w =
  (inr tt, set_heap (<[r := set_atoms (atoms a ++ [set_tag t x]) a]> (heap w)) w).
Proof.
  intros Hr. unfold Run.setitem_tag.
  rewrite (bind_ok _ _ _ _ _ (get_ok _ _ _ Hr)), set_tag_last.
  by rewrite (modify_ok _ _ _ _ Hr).
Qed.

Lemma pickle_load_ok path p w :
  committed (fs w) !! path = Some p -> Run.pickle_load path w = (inr p, w).
Proof. unfold Run.pickle_load. by intros ->. Qed.

Lemma pickle_load_missing path w :
  committed (fs w) !! path = None ->
  Run.pickle_load path w = (inl (FileNotFoundError path), w).
Proof. unfold Run.pickle_load. by intros ->. Qed.

End RunFacts.

(** ** Adsorption sites *)

Section AdsorptionSitesFacts.
Context `{Collaborators}.

(** One pass of the inner loop: three objects are created (the uranium
    atom, the copy of the tiled slab, their sum) and nothing else on the
    heap changes. *)
Lemma place_marker_ok r slab_repeat docs site w tiled :
  heap w !! r = Some tiled ->
  place_marker r slab_repeat docs site w =
  (inr (docs ++ [adslab_doc tiled slab_repeat site]),
   set_heap (heap w ++ [Ase.translate site (Atoms_init "U"); tiled;
                        adslab_of tiled site]) w).
Proof.
  intros Hr. unfold place_marker.
  set (h := heap w). set (U := Atoms_init "U").
  (* adsorbate = ase.Atoms('U') *)
  rewrite (bind_ok _ _ w (length h) (set_heap (h ++ [U]) w) eq_refl).
  (* adsorbate.translate(site) *)
  assert (H1 : heap (set_heap (h ++ [U]) w) !! length h = Some U).
  { simpl. rewrite lookup_app_r by lia. by rewrite Nat.sub_diag. }
  unfold Run.translate. rewrite (bind_ok _ _ _ _ _ (modify_ok _ _ _ _ H1)).
  simpl heap. rewrite insert_app_r_alt by lia. rewrite Nat.sub_diag. simpl.
  set (U' := Ase.translate site U).
  set (w2 := set_heap (h ++ [U']) (set_heap (h ++ [U]) w)).
  (* slab_atoms_tiled.copy() *)
  assert (H2 : heap w2 !! r = Some tiled) by (by apply lookup_app_l_Some).
  rewrite (bind_ok _ _ _ _ _ (copy_ok _ _ _ H2)).
  set (w3 := set_heap (heap w2 ++ [tiled]) w2).
  (* ... + adsorbate *)
  assert (H3 : heap w3 !! length (heap w2) = Some tiled).
  { simpl. rewrite lookup_app_r by lia. by rewrite Nat.sub_diag. }
  assert (H4 : heap w3 !! length h = Some U').
  { simpl. rewrite <- app_assoc. rewrite lookup_app_r by lia.
    by rewrite Nat.sub_diag. }
  rewrite (bind_ok _ _ _ _ _ (add_ok _ _ _ _ _ H3 H4)).
  set (w4 := set_heap (heap w3 ++ [extend tiled U']) w3).
  (* adslab_atoms[-1].tag = 1 *)
  assert (H5 : heap w4 !! length (heap w3) =
               Some (set_atoms (atoms tiled ++
                 [ {| symbol := "U"; position := vadd vzero site; tag := 0 |} ]) tiled)).
  { simpl. rewrite lookup_app_r by lia. by rewrite Nat.sub_diag. }
  rewrite (bind_ok _ _ _ _ _ (setitem_tag_last _ _ _ _ _ H5)).
  set (w5 := set_heap _ w4).
  assert (H6 : heap w5 !! length (heap w3) = Some (adslab_of tiled site)).
  { subst w5. simpl. rewrite insert_app_r_alt by lia.
    rewrite Nat.sub_diag. simpl.
    rewrite lookup_app_r by lia. by rewrite Nat.sub_diag. }
  rewrite (bind_ok _ _ _ _ _ (get_ok _ _ _ H6)).
  unfold Run.ret, adslab_doc, annotate_site. f_equal.
  subst w5 w4 w3 w2. unfold set_heap. simpl. f_equal.
  rewrite insert_app_r_alt by lia. rewrite Nat.sub_diag. simpl.
  by rewrite <- !app_assoc.
Qed.

Lemma place_markers_ok r slab_repeat sites docs w tiled :
  heap w !! r = Some tiled ->
  exists objs,
    Run.for_ (place_marker r slab_repeat) sites docs w =
    (inr (docs ++ map (adslab_doc tiled slab_repeat) sites),
     set_heap (heap w ++ objs) w).
Proof.
  revert docs w. induction sites as [|site sites IH]; intros docs w Hr; simpl.
  - exists []. unfold Run.ret. rewrite !app_nil_r. by destruct w.
  - rewrite (bind_ok _ _ _ _ _ (place_marker_ok _ slab_repeat docs site _ _ Hr)).
    destruct (IH (docs ++ [adslab_doc tiled slab_repeat site])
                (set_heap (heap w ++ [Ase.translate site (Atoms_init "U"); tiled;
                                      adslab_of tiled site]) w))
      as [objs ->].
    { by apply lookup_app_l_Some. }
    eexists. rewrite <- !app_assoc. simpl. unfold set_heap. simpl.
    by rewrite <- !app_assoc.
Qed.

(** One pass of the outer loop. *)
Lemma mark_sites_of_slab_ok min_xy docs slab_doc w :
  exists objs,
    mark_sites_of_slab min_xy docs slab_doc w =
    (inr (docs ++ adslab_docs_of min_xy slab_doc),
     set_heap (heap w ++ tiled_of min_xy slab_doc :: objs) w).
Proof.
  unfold mark_sites_of_slab, adslab_docs_of, sites_of, tiled_of, repeat_of.
  destruct (tile_atoms (make_atoms_from_doc slab_doc) min_xy min_xy)
    as [tiled slab_repeat]. simpl.
  rewrite (bind_ok _ _ w (length (heap w)) (set_heap (heap w ++ [tiled]) w) eq_refl).
  assert (Hr : heap (set_heap (heap w ++ [tiled]) w) !! length (heap w) = Some tiled).
  { simpl. rewrite lookup_app_r by lia. by rewrite Nat.sub_diag. }
  rewrite (bind_ok _ _ _ _ _ (get_ok _ _ _ Hr)).
  destruct (place_markers_ok _ slab_repeat (find_adsorption_sites tiled) docs _ _ Hr)
    as [objs ->].
  exists objs. unfold set_heap. simpl. by rewrite <- app_assoc.
Qed.

Lemma mark_sites_of_slabs_ok min_xy slab_docs docs w :
  exists objs,
    Run.for_ (mark_sites_of_slab min_xy) slab_docs docs w =
    (inr (docs ++ concat (map (adslab_docs_of min_xy) slab_docs)),
     set_heap (heap w ++ objs) w).
Proof.
  revert docs w. induction slab_docs as [|sd sds IH]; intros docs w; simpl.
  - exists []. unfold Run.ret. rewrite !app_nil_r. by destruct w.
  - destruct (mark_sites_of_slab_ok min_xy docs sd w) as [objs1 H1].
    rewrite (bind_ok _ _ _ _ _ H1).
    destruct (IH (docs ++ adslab_docs_of min_xy sd)
                (set_heap (heap w ++ tiled_of min_xy sd :: objs1) w)) as [objs2 ->].
    eexists. unfold set_heap. simpl. by rewrite <- !app_assoc.
Qed.

End AdsorptionSitesFacts.

(** ** What a run does to the heap and to the files *)

Section RunTaskFacts.
Context `{Collaborators}.

Lemma save_task_output_ok task out w :
  save_task_output task out w = (inr tt, set_fs (saved (output task) out (fs w)) w).
Proof.
  unfold save_task_output, Run.bind, stage, publish, saved. simpl.
  by rewrite lookup_insert_eq.
Qed.

Lemma exists_saved path out f : exists_ (saved path out f) path = true.
Proof.
  unfold exists_, saved. simpl. apply bool_decide_eq_true.
  rewrite lookup_insert_eq. by eexists.
Qed.

Lemma GenerateGas_run_ok self gas_name w :
  exists objs,
    GenerateGas_run self gas_name w =
    match computed (GenerateGas gas_name) None with
    | inr p => (inr tt, {| heap := heap w ++ objs; fs := saved (output self) p (fs w) |})
    | inl e => (inl e, {| heap := heap w ++ objs; fs := fs w |})
    end.
Proof.
  unfold GenerateGas_run, computed.
  destruct (g2 gas_name) as [molecule|].
  - exists [boxed_molecule molecule].
    rewrite (bind_ok _ _ w (length (heap w)) (set_heap (heap w ++ [molecule]) w) eq_refl).
    set (w1 := set_heap (heap w ++ [molecule]) w).
    assert (H1 : heap w1 !! length (heap w) = Some molecule).
    { simpl. rewrite lookup_app_r by lia. by rewrite Nat.sub_diag. }
    rewrite (bind_ok _ _ _ _ _ (modify_ok _ _ _ _ H1)).
    set (w2 := set_heap _ w1).
    assert (H2 : heap w2 !! length (heap w) =
                 Some (Ase.translate (vscalar 10%float) molecule)).
    { subst w2. simpl. rewrite insert_app_r_alt by lia.
      rewrite Nat.sub_diag. simpl.
      rewrite lookup_app_r by lia. by rewrite Nat.sub_diag. }
    rewrite (bind_ok _ _ _ _ _ (modify_ok _ _ _ _ H2)).
    set (w3 := set_heap _ w2).
    assert (H3 : heap w3 !! length (heap w) =
                 Some (set_cell (cell_of_lengths 20%float 20%float 20%float)
                         (Ase.translate (vscalar 10%float) molecule))).
    { subst w3 w2. simpl. rewrite !insert_app_r_alt by lia.
      rewrite Nat.sub_diag. simpl.
      rewrite lookup_app_r by lia. by rewrite Nat.sub_diag. }
    rewrite (bind_ok _ _ _ _ _ (modify_ok _ _ _ _ H3)).
    set (w4 := set_heap _ w3).
    assert (H4 : heap w4 !! length (heap w) = Some (boxed_molecule molecule)).
    { subst w4 w3 w2. simpl. rewrite !insert_app_r_alt by lia.
      rewrite Nat.sub_diag. simpl.
      rewrite lookup_app_r by lia. by rewrite Nat.sub_diag. }
    rewrite (bind_ok _ _ _ _ _ (get_ok _ _ _ H4)).
    rewrite save_task_output_ok. unfold set_fs. f_equal. f_equal.
    subst w4 w3 w2. simpl. rewrite !insert_app_r_alt by lia.
    by rewrite Nat.sub_diag.
  - exists []. unfold Run.bind, Run.throw. rewrite app_nil_r. by destruct w.
Qed.

Lemma GenerateBulk_run_ok self mpid w :
  GenerateBulk_run self mpid w =
  match computed (GenerateBulk mpid) None with
  | inr p => (inr tt, {| heap := heap w; fs := saved (output self) p (fs w) |})
  | inl e => (inl e, w)
  end.
Proof.
  unfold GenerateBulk_run, computed, Run.bind, Run.lift, Py.bind.
  destruct (get_structure_by_material_id _ mpid) as [e|structure]; [done|].
  by rewrite save_task_output_ok.
Qed.

Lemma GenerateSlabs_run_ok self mpid miller_indices sgs gss w :
  GenerateSlabs_run self mpid miller_indices sgs gss w =
  match computed (GenerateSlabs mpid miller_indices sgs gss)
          (committed (fs w) !! output (GenerateSlabs_requires mpid)) with
  | inr p => (inr tt, {| heap := heap w; fs := saved (output self) p (fs w) |})
  | inl e => (inl e, w)
  end.
Proof.
  unfold GenerateSlabs_run, computed, Run.bind, Run.pickle_load.
  unfold Run.ret, Run.throw, ok, raise.
  destruct (committed (fs w) !! _) as [[d|ds]|]; cbv beta iota; try done.
  by rewrite save_task_output_ok.
Qed.

Lemma GenerateAdsorptionSites_run_ok self mpid miller_indices sgs gss min_xy w :
  exists objs,
    GenerateAdsorptionSites_run self mpid miller_indices sgs gss min_xy w =
    match computed (GenerateAdsorptionSites mpid miller_indices sgs gss min_xy)
            (committed (fs w) !!
               output (GenerateAdsorptionSites_requires mpid miller_indices sgs gss)) with
    | inr p => (inr tt, {| heap := heap w ++ objs; fs := saved (output self) p (fs w) |})
    | inl e => (inl e, {| heap := heap w ++ objs; fs := fs w |})
    end.
Proof.
  unfold GenerateAdsorptionSites_run, computed.
  destruct (committed (fs w) !! _) as [[d|ds]|] eqn:Hin.
  - exists []. rewrite (bind_ok _ _ _ _ _ (pickle_load_ok _ _ _ Hin)).
    destruct (map_to_list d) as [|kv kvs].
    + cbv beta iota.
      rewrite (bind_ok (Run.ret []) _ w [] w eq_refl). simpl Run.for_.
      rewrite (bind_ok (Run.ret []) _ w [] w eq_refl).
      rewrite save_task_output_ok, app_nil_r. by destruct w.
    + unfold Run.bind, Run.throw. rewrite app_nil_r. by destruct w.
  - destruct (mark_sites_of_slabs_ok min_xy ds [] w) as [objs Hloop].
    exists objs. rewrite (bind_ok _ _ _ _ _ (pickle_load_ok _ _ _ Hin)).
    rewrite (bind_ok _ _ w ds w eq_refl).
    rewrite (bind_ok _ _ _ _ _ Hloop).
    by rewrite save_task_output_ok.
  - exists []. rewrite (bind_raise _ _ _ _ _ (pickle_load_missing _ _ Hin)).
    rewrite app_nil_r. by destruct w.
Qed.

Lemma FindBulk_run_ok self mpid w :
  FindBulk_run self mpid w =
  match computed (FindBulk mpid) None with
  | inr p => (inr tt, {| heap := heap w; fs := saved (output self) p (fs w) |})
  | inl e => (inl e, w)
  end.
Proof.
  unfold FindBulk_run, computed, Run.bind, Run.lift, Py.bind.
  destruct (find_bulk mpid) as [e|d]; [done|].
  by rewrite save_task_output_ok.
Qed.

End RunTaskFacts.

(** ** The tasks of this module *)

Section TaskTheorems.
Context `{Collaborators}.

(** A run creates objects, and either saves what [computed] says at the
    output location of the task, or raises what [computed] says and leaves
    the files as they were. *)
Lemma run_computed self w :
  exists objs,
    run self w =
    match computed self (pickled_input self (fs w)) with
    | inr p => (inr tt, {| heap := heap w ++ objs; fs := saved (output self) p (fs w) |})
    | inl e => (inl e, {| heap := heap w ++ objs; fs := fs w |})
    end.
Proof.
  destruct self as [gas_name|mpid|mpid mi sgs gss|mpid mi sgs gss min_xy|mpid].
  - destruct (GenerateGas_run_ok (GenerateGas gas_name) gas_name w) as [objs Hrun].
    exists objs. exact Hrun.
  - exists []. simpl run. rewrite GenerateBulk_run_ok, app_nil_r.
    destruct (computed _ _); [by destruct w|done].
  - exists []. simpl run. rewrite GenerateSlabs_run_ok, app_nil_r.
    unfold pickled_input; simpl deps.
    destruct (computed _ _); [by destruct w|done].
  - destruct (GenerateAdsorptionSites_run_ok
                (GenerateAdsorptionSites mpid mi sgs gss min_xy)
                mpid mi sgs gss min_xy w) as [objs Hrun].
    exists objs. exact Hrun.
  - exists []. simpl run. rewrite FindBulk_run_ok, app_nil_r.
    destruct (computed (FindBulk mpid) None) eqn:Hc;
      change (computed (FindBulk mpid) (pickled_input (FindBulk mpid) (fs w)))
        with (computed (FindBulk mpid) None); rewrite Hc; [by destruct w|done].
Qed.

Lemma lookup_adslab_site rep site d :
  annotate_site rep site d !! "adsorption_site" = Some (site_value site).
Proof. unfold annotate_site. by rewrite lookup_insert_eq. Qed.

Lemma lookup_adslab_repeat rep site d :
  annotate_site rep site d !! "slab_repeat" = Some (repeat_value rep).
Proof.
  unfold annotate_site. rewrite lookup_insert_ne by done.
  by rewrite lookup_insert_eq.
Qed.

Lemma lookup_adslab_other rep site d k :
  k ≠ "slab_repeat" -> k ≠ "adsorption_site" ->
  annotate_site rep site d !! k = d !! k.
Proof.
  intros Hr Hs. unfold annotate_site.
  rewrite lookup_insert_ne by done. by rewrite lookup_insert_ne.
Qed.

(** C2. When the pickle of the required [GenerateSlabs] task holds
    [slab_docs], [GenerateAdsorptionSites.run] succeeds and saves one group
    of documents per slab document, in order. The group of a slab has
    exactly one document per site that [find_adsorption_sites] discovers on
    the tiled slab: its [adsorption_site] is that site, its [slab_repeat]
    is the repeat factors that [tile_atoms] returned for the slab, and the
    rest of it is the document of an atoms object whose last atom is a
    uranium atom with tag [1]. *)
Theorem adsorption_sites_fan_out (mpid : string) (miller_indices : list Z)
    (sgs gss : pydict) (min_xy : float) (slab_docs : list doc) (w : World) :
  let self := GenerateAdsorptionSites mpid miller_indices sgs gss min_xy in
  committed (fs w) !! output (GenerateSlabs mpid miller_indices sgs gss) =
    Some (PDocs slab_docs) ->
  exists groups : list (list doc),
    (run self w).1 = inr tt /\
    committed (fs (run self w).2) !! output self = Some (PDocs (concat groups)) /\
    Forall2 (fun slab_doc group =>
      let tiled := (tile_atoms (make_atoms_from_doc slab_doc) min_xy min_xy).1 in
      let slab_repeat := (tile_atoms (make_atoms_from_doc slab_doc) min_xy min_xy).2 in
      Forall2 (fun site d =>
        d !! "adsorption_site" = Some (site_value site) /\
        d !! "slab_repeat" = Some (repeat_value slab_repeat) /\
        exists (adslab : Atoms) (u : Atom),
          (forall k, k ≠ "slab_repeat" -> k ≠ "adsorption_site" ->
             d !! k = make_doc_from_atoms adslab !! k) /\
          last (atoms adslab) = Some u /\ symbol u = "U" /\ tag u = 1)
        (find_adsorption_sites tiled) group)
      slab_docs groups.
Proof.
  intros self Hin.
  exists (map (adslab_docs_of min_xy) slab_docs).
  destruct (run_computed self w) as [objs Hrun].
  unfold pickled_input in Hrun. simpl deps in Hrun.
  unfold GenerateAdsorptionSites_requires, GenerateSlabs_init in Hrun.
  simpl default in Hrun. rewrite Hin in Hrun. simpl computed in Hrun.
  rewrite Hrun. simpl. split; [done|split].
  - by rewrite lookup_insert_eq.
  - clear. induction slab_docs as [|sd sds IH]; constructor; [|exact IH].
    unfold adslab_docs_of, sites_of, tiled_of, repeat_of.
    induction (find_adsorption_sites _) as [|site sites IHs]; constructor;
      [|exact IHs].
    unfold adslab_doc.
    rewrite lookup_adslab_site, lookup_adslab_repeat.
    split; [done|split; [done|]].
    eexists _, (marker site). split; [|split; [|done]].
    + intros k Hr Hs. by apply lookup_adslab_other.
    + unfold adslab_of. simpl. by rewrite last_snoc.
Qed.

(** C9. Marking the sites of a slab creates the tiled slab as a new
    object and, after all the markers are placed, that object is what it
    was when it was created; no object that was on the heap before has
    changed, and no file has. Each document added is the document of an
    atoms object of its own, whose atoms are those of the tiled slab
    followed by the marker of the site, and whose cell, periodicity and
    constraints are those of the tiled slab. *)
Theorem marker_leaves_tiled_slab_untouched (min_xy : float) (docs : list doc)
    (slab_doc : doc) (w : World) :
  let tiled := (tile_atoms (make_atoms_from_doc slab_doc) min_xy min_xy).1 in
  let slab_repeat := (tile_atoms (make_atoms_from_doc slab_doc) min_xy min_xy).2 in
  let sites := find_adsorption_sites tiled in
  let w' := (mark_sites_of_slab min_xy docs slab_doc w).2 in
  exists adslabs : list Atoms,
    (mark_sites_of_slab min_xy docs slab_doc w).1 =
      inr (docs ++ zip_with (fun site adslab =>
                     <["adsorption_site" := site_value site]>
                       (<["slab_repeat" := repeat_value slab_repeat]>
                          (make_doc_from_atoms adslab)))
                   sites adslabs) /\
    Forall2 (fun site adslab =>
      atoms adslab =
        atoms tiled ++ [ {| symbol := "U"; position := vadd vzero site; tag := 1 |} ] /\
      cell adslab = cell tiled /\ pbc adslab = pbc tiled /\
      constraints adslab = constraints tiled)
      sites adslabs /\
    heap w' !! length (heap w) = Some tiled /\
    (forall r a, heap w !! r = Some a -> heap w' !! r = Some a) /\
    fs w' = fs w.
Proof.
  intros tiled slab_repeat sites w'.
  destruct (mark_sites_of_slab_ok min_xy docs slab_doc w) as [objs Hrun].
  subst w'. rewrite Hrun. simpl.
  exists (map (adslab_of tiled) sites).
  split; [|split; [|split; [|split; [|done]]]].
  - do 2 f_equal. unfold adslab_docs_of, sites_of, tiled_of, repeat_of.
    fold tiled. fold sites. fold slab_repeat.
    clear. induction sites as [|site l IH]; simpl; [done|].
    by rewrite <- IH.
  - clear. induction sites as [|site l IH]; constructor; [done|exact IH].
  - fold (tiled_of min_xy slab_doc). rewrite lookup_app_r by lia.
    by rewrite Nat.sub_diag.
  - intros r a Hr. by apply lookup_app_l_Some.
Qed.

(** C10. For a name that the g2 collection resolves, [GenerateGas.run]
    succeeds and saves a single document: the document of the molecule
    with [10.] added to every coordinate of every position, with the cell
    [20 x 20 x 20] and periodic in the three directions; symbols, tags
    and constraints are those of the molecule. *)
Theorem generate_gas_document (gas_name : string) (molecule : Atoms) (w : World) :
  g2 gas_name = Some molecule ->
  exists a : Atoms,
    (run (GenerateGas gas_name) w).1 = inr tt /\
    committed (fs (run (GenerateGas gas_name) w).2) !! output (GenerateGas gas_name) =
      Some (PDoc (make_doc_from_atoms a)) /\
    map position (atoms a) =
      map (fun x => let '(px, py, pz) := position x in
                    (PrimFloat.add px 10, PrimFloat.add py 10, PrimFloat.add pz 10)%float)
          (atoms molecule) /\
    map symbol (atoms a) = map symbol (atoms molecule) /\
    map tag (atoms a) = map tag (atoms molecule) /\
    cell a = ((20, 0, 0), (0, 20, 0), (0, 0, 20))%float /\
    pbc a = (true, true, true) /\
    constraints a = constraints molecule.
Proof.
  intros Hg2. exists (boxed_molecule molecule).
  destruct (run_computed (GenerateGas gas_name) w) as [objs Hrun].
  simpl computed in Hrun. rewrite Hg2 in Hrun. rewrite Hrun. simpl.
  split; [done|split; [by rewrite lookup_insert_eq|]].
  rewrite !map_map. simpl.
  split; [|done].
  apply map_ext. intros x. by destruct (position x) as [[px py] pz].
Qed.

(** C6. The dependencies of a task are a function of its parameters
    alone: [deps] takes no state, so it is computed without running
    anything. [GenerateSlabs] requires exactly one task, [FindBulk] for
    its [mpid]; [GenerateAdsorptionSites] requires exactly one task, the
    [GenerateSlabs] instance with its own [mpid], [miller_indices],
    [slab_generator_settings] and [get_slab_settings], also when these
    settings are the defaults. *)
Theorem declared_dependencies (mpid : string) (miller_indices : list Z)
    (sgs gss : pydict) (min_xy : float) :
  deps (GenerateSlabs mpid miller_indices sgs gss) = [FindBulk mpid] /\
  deps (GenerateAdsorptionSites mpid miller_indices sgs gss min_xy) =
    [GenerateSlabs mpid miller_indices sgs gss] /\
  deps (GenerateAdsorptionSites_init mpid miller_indices None None None) =
    [GenerateSlabs_init mpid miller_indices None None].
Proof. done. Qed.

Lemma pickled_input_agree self f1 f2 :
  (forall d, d ∈ deps self -> committed f1 !! output d = committed f2 !! output d) ->
  defined_here self = true ->
  pickled_input self f1 = pickled_input self f2.
Proof.
  intros Hagree Hhere. unfold pickled_input.
  destruct (deps self) as [|d [|d' ds]]; try done.
  apply Hagree. set_solver.
Qed.

(** C7. What a task of this module does depends on its parameters and on
    the pickles at the output locations of the tasks it requires, and on
    nothing else of the state it runs in. Two runs of the same task, in
    states whose files agree at those locations (the heaps of objects and
    all other files may differ), end the same way: with the same value or
    the same exception, and, after a successful run, with the same output
    saved. *)
Theorem run_reads_persisted_inputs (self : Task) (w1 w2 : World) :
  defined_here self = true ->
  (forall d, d ∈ deps self ->
     committed (fs w1) !! output d = committed (fs w2) !! output d) ->
  (run self w1).1 = (run self w2).1 /\
  (forall u, (run self w1).1 = inr u ->
     committed (fs (run self w1).2) !! output self =
     committed (fs (run self w2).2) !! output self).
Proof.
  intros Hhere Hagree.
  destruct (run_computed self w1) as [objs1 H1].
  destruct (run_computed self w2) as [objs2 H2].
  rewrite (pickled_input_agree self (fs w1) (fs w2) Hagree Hhere) in H1.
  rewrite H1, H2.
  destruct (computed self _) as [e|p]; simpl; [done|].
  split; [done|]. intros u _. by rewrite !lookup_insert_eq.
Qed.

(** C5. A run that raises leaves the files exactly as they were, those at
    their final path and those under a temporary name alike, so it leaves
    no output behind. A write that stops after its first half leaves every
    location as visible, or not, as it was. A completed write of [out]
    succeeds, after which the output exists and loading it gives back
    [out]. *)
Theorem failed_run_leaves_no_output :
  (forall (self : Task) (w : World) (e : exn),
     (run self w).1 = inl e -> fs (run self w).2 = fs w) /\
  (forall (path : string) (out : payload) (w : World) (q : string),
     exists_ (fs (stage path out w).2) q = exists_ (fs w) q) /\
  (forall (task : Task) (out : payload) (w : World),
     let w' := (save_task_output task out w).2 in
     (save_task_output task out w).1 = inr tt /\
     exists_ (fs w') (output task) = true /\
     Run.pickle_load (output task) w' = (inr out, w')).
Proof.
  split; [|split].
  - intros self w e. destruct (run_computed self w) as [objs ->].
    by destruct (computed self _).
  - done.
  - intros task out w w'. subst w'. rewrite save_task_output_ok. simpl.
    split; [done|split; [apply exists_saved|]].
    apply pickle_load_ok. simpl. by rewrite lookup_insert_eq.
Qed.

End TaskTheorems.

(** ** Task identity *)

Section IdentityFacts.

Lemma ascii_compare_lt_trans a b c :
  Ascii.compare a b = Lt -> Ascii.compare b c = Lt -> Ascii.compare a c = Lt.
Proof. unfold Ascii.compare. rewrite !N.compare_lt_iff. lia. Qed.

Lemma string_leb_trans s1 s2 s3 :
  String.leb s1 s2 = true -> String.leb s2 s3 = true -> String.leb s1 s3 = true.
Proof.
  unfold String.leb. revert s2 s3.
  induction s1 as [|a s1 IH]; intros [|b s2] [|c s3]; simpl; try done.
  destruct (Ascii.compare a b) eqn:Hab; destruct (Ascii.compare b c) eqn:Hbc;
    try done.
  - apply Ascii.compare_eq_iff in Hab as ->. rewrite Hbc. apply IH.
  - apply Ascii.compare_eq_iff in Hab as ->. by rewrite Hbc.
  - apply Ascii.compare_eq_iff in Hbc as <-. by rewrite Hab.
  - by rewrite (ascii_compare_lt_trans a b c).
Qed.

#[local] Instance key_le_trans : Transitive key_le.
Proof. intros a b c. unfold key_le. apply string_leb_trans. Qed.

#[local] Instance key_le_total : Total key_le.
Proof. intros a b. unfold key_le. apply String.leb_total. Qed.

Lemma NoDup_keys_elem (l : pydict) a b :
  NoDup (l.*1) -> a ∈ l -> b ∈ l -> a.1 = b.1 -> a = b.
Proof.
  induction l as [|x l IH]; simpl; intros Hnd Ha Hb Hk.
  - by apply elem_of_nil in Ha.
  - apply NoDup_cons in Hnd as [Hx Hnd].
    apply elem_of_cons in Ha as [->|Ha]; apply elem_of_cons in Hb as [->|Hb].
    + done.
    + exfalso. apply Hx. rewrite Hk. apply list_elem_of_fmap. by exists b.
    + exfalso. apply Hx. rewrite <- Hk. apply list_elem_of_fmap. by exists a.
    + by apply IH.
Qed.

(** Sorting by key does not depend on the order of the items. *)
Lemma sort_items_unique (l1 l2 : pydict) :
  NoDup (l1.*1) -> l1 ≡ₚ l2 -> merge_sort key_le l1 = merge_sort key_le l2.
Proof.
  intros Hnd Hperm.
  apply (StronglySorted_unique_strong key_le).
  - intros a b Ha Hb Hab Hba.
    rewrite merge_sort_Permutation in Ha, Hb. rewrite <- Hperm in Hb.
    apply (NoDup_keys_elem l1); [done..|].
    by apply String.leb_antisym.
  - apply StronglySorted_merge_sort; apply _.
  - apply StronglySorted_merge_sort; apply _.
  - by rewrite !merge_sort_Permutation.
Qed.

Lemma canon_pyeq : forall v1 v2, pyeq v1 v2 -> canon v1 = canon v2.
Proof.
  fix IH 3. intros v1 v2 Hp.
  destruct Hp as [| | | | |l1 l2 Hl|l1 l2 Hl|d1 d2 d2' Hnd Hd Hperm]; simpl;
    try done.
  - f_equal. revert l1 l2 Hl. fix IHl 3.
    intros l1 l2 [|x y l l' Hxy Hl]; simpl; [done|].
    f_equal; [apply IH, Hxy|apply IHl, Hl].
  - f_equal. revert l1 l2 Hl. fix IHl 3.
    intros l1 l2 [|x y l l' Hxy Hl]; simpl; [done|].
    f_equal; [apply IH, Hxy|apply IHl, Hl].
  - f_equal.
    set (f := fun kv : string * pyval => let '(k, x) := kv in (k, canon x)).
    assert (Hmap : map f d1 = map f d2').
    { clear Hnd Hperm. revert d1 d2' Hd. fix IHl 3.
      intros d1 d2' [|[k x] [k' y] l l' [Hk Hxy] Hl]; simpl; [done|].
      simpl in Hk. subst k'. f_equal; [|apply IHl, Hl].
      f_equal. apply IH, Hxy. }
    rewrite Hmap. apply sort_items_unique.
    + rewrite <- Hmap.
      replace ((map f d1).*1) with (d1.*1); [done|].
      clear. induction d1 as [|[k x] l IHd]; simpl; [done|]. by f_equal.
    + by apply Permutation_map.
Qed.

Lemma canon_params_eq k1 k2 : kwargs_eq k1 k2 -> canon_params k1 = canon_params k2.
Proof.
  unfold kwargs_eq, canon_params.
  induction 1 as [|[n x] [n' y] l l' [Hn Hxy] Hl IHl]; simpl; [done|].
  simpl in Hn. subst n'. rewrite (canon_pyeq x y Hxy). by f_equal.
Qed.

End IdentityFacts.

Section IdentityTheorems.
Context `{Collaborators}.

(** C4. Two tasks of the same type whose parameters are equal have the
    same identity and the same output location. Identity and location are
    functions of the type and the parameters of the task alone: they take
    no state. Parameters are compared as Python compares them, whatever
    the insertion order of the items of a dictionary. *)
Theorem equal_parameters_equal_identity (t1 t2 : Task) :
  task_family t1 = task_family t2 ->
  kwargs_eq (param_kwargs t1) (param_kwargs t2) ->
  identity t1 = identity t2 /\ output t1 = output t2.
Proof.
  intros Hfam Hkw.
  assert (Hid : identity t1 = identity t2).
  { unfold identity, make_identity. rewrite Hfam. f_equal. by apply canon_params_eq. }
  split; [done|].
  unfold output, make_task_output_object, task_id. by rewrite Hfam, Hid.
Qed.

End IdentityTheorems.

(** ** The resolver *)

Section ResolverFacts.
Context `{Collaborators}.
Import Resolver.

(** A run touches no location but the output location of its task, and
    removes nothing. *)
Lemma run_other_locations self w q :
  q ≠ output self ->
  committed (fs (run self w).2) !! q = committed (fs w) !! q.
Proof.
  intros Hq. destruct (run_computed self w) as [objs ->].
  destruct (computed self _); simpl; [done|]. by rewrite lookup_insert_ne.
Qed.

Lemma run_ok_exists self w u :
  (run self w).1 = inr u -> exists_ (fs (run self w).2) (output self) = true.
Proof.
  destruct (run_computed self w) as [objs ->].
  destruct (computed self _); simpl; [done|]. intros _. apply exists_saved.
Qed.

Lemma exists_agree f1 f2 q :
  committed f1 !! q = committed f2 !! q -> exists_ f1 q = exists_ f2 q.
Proof. unfold exists_. by intros ->. Qed.

Lemma invocations_app p l1 l2 :
  invocations p (l1 ++ l2) = (invocations p l1 + invocations p l2)%nat.
Proof. unfold invocations. by rewrite filter_app, length_app. Qed.

Lemma invocations_other p q : q ≠ p -> invocations p [q] = 0%nat.
Proof.
  intros Hq. unfold invocations. rewrite filter_cons_False by done. done.
Qed.

Lemma invocations_self p : invocations p [p] = 1%nat.
Proof. unfold invocations. rewrite filter_cons_True by done. done. Qed.

(** A step at a node leaves the other locations alone: their file, their
    status and the count of their runs. *)
Lemma step_other s t q :
  q ≠ output t ->
  committed (fs (world (step s t))) !! q = committed (fs (world s)) !! q /\
  statuses (step s t) !! q = statuses s !! q /\
  invocations q (executed (step s t)) = invocations q (executed s).
Proof.
  intros Hq. unfold step.
  destruct (exists_ _ _); [|destruct (forallb _ _)].
  - simpl. by rewrite lookup_insert_ne.
  - pose proof (run_other_locations t (world s) q Hq) as Hrun.
    destruct (run t (world s)) as [[e|u] w']; simpl in *;
      rewrite lookup_insert_ne by done;
      rewrite invocations_app, invocations_other by done;
      repeat split; try done; lia.
  - simpl. by rewrite lookup_insert_ne.
Qed.

Lemma steps_other mid s q :
  q ∉ map output mid ->
  committed (fs (world (fold_left step mid s))) !! q = committed (fs (world s)) !! q /\
  statuses (fold_left step mid s) !! q = statuses s !! q /\
  invocations q (executed (fold_left step mid s)) = invocations q (executed s).
Proof.
  revert s. induction mid as [|t mid IH]; intros s Hq; simpl; [done|].
  simpl in Hq. rewrite not_elem_of_cons in Hq. destruct Hq as [Hqt Hq].
  destruct (IH (step s t) Hq) as (-> & -> & ->).
  by apply step_other.
Qed.

(** A step at a node whose output exists does not run it. *)
Lemma step_exists s t :
  exists_ (fs (world s)) (output t) = true ->
  step s t = mark (output t) done s.
Proof. unfold step. by intros ->. Qed.

(** A step at a node whose output does not exist, and which ends done,
    has run it, once, and its output exists afterwards. *)
Lemma step_done s t :
  exists_ (fs (world s)) (output t) = false ->
  statuses (step s t) !! output t = Some done ->
  executed (step s t) = executed s ++ [output t] /\
  exists_ (fs (world (step s t))) (output t) = true.
Proof.
  unfold step. intros ->.
  destruct (forallb _ _).
  - pose proof (run_ok_exists t (world s)) as Hrun.
    destruct (run t (world s)) as [[e|u] w']; simpl in *.
    + by rewrite lookup_insert_eq.
    + intros _. split; [done|]. by apply (Hrun u).
  - simpl. by rewrite lookup_insert_eq.
Qed.

(** The nodes that a visit adds are not on the stack. *)
Lemma visit_all_grows (stack : list string)
    (f : list Task -> Task -> graph_error + list Task) :
  (forall order t order',
     f order t = inr order' ->
     exists new, order' = order ++ new /\ Forall (fun x => output x ∉ stack) new) ->
  forall ds order order',
    visit_all f ds order = inr order' ->
    exists new, order' = order ++ new /\ Forall (fun x => output x ∉ stack) new.
Proof.
  intros Hf. induction ds as [|d ds IH]; intros order order'; simpl.
  - intros [= <-]. exists []. by rewrite app_nil_r.
  - destruct (f order d) as [e|order1] eqn:Hd; [done|].
    intros Hrest. destruct (Hf _ _ _ Hd) as (new1 & -> & Hnew1).
    destruct (IH _ _ Hrest) as (new2 & -> & Hnew2).
    exists (new1 ++ new2). rewrite <- app_assoc. split; [done|].
    by apply Forall_app.
Qed.

Lemma visit_grows fuel :
  forall (stack : list string) order t order',
    visit fuel stack order t = inr order' ->
    exists new, order' = order ++ new /\ Forall (fun x => output x ∉ stack) new.
Proof.
  induction fuel as [|fuel IH]; intros stack order t order'; simpl; [done|].
  case_bool_decide as Hstack; [done|].
  case_bool_decide as Hseen.
  - intros [= <-]. exists []. by rewrite app_nil_r.
  - destruct (visit_all _ _ _) as [e|order1] eqn:Hdeps; [done|].
    intros [= <-].
    destruct (visit_all_grows _ _ (IH (output t :: stack)) _ _ _ Hdeps)
      as (new & -> & Hnew).
    exists (new ++ [t]). rewrite <- app_assoc. split; [done|].
    apply Forall_app. split.
    + eapply Forall_impl; [exact Hnew|]. intros x Hx. set_solver.
    + by constructor.
Qed.

(** The order in which the nodes are stepped ends with the root, and no
    node before it has the location of the root. *)
Lemma visit_root fuel root order :
  visit fuel [] [] root = inr order ->
  exists mid, order = mid ++ [root] /\ output root ∉ map output mid.
Proof.
  destruct fuel as [|fuel]; [done|]. cbn [visit].
  rewrite (bool_decide_eq_false_2 (output root ∈ [])) by set_solver.
  rewrite (bool_decide_eq_false_2 (output root ∈ map output [])) by (simpl; set_solver).
  destruct (visit_all _ _ _) as [e|order1] eqn:Hdeps; [done|].
  intros [= <-].
  destruct (visit_all_grows _ _ (visit_grows fuel [output root]) _ _ _ Hdeps)
    as (new & -> & Hnew).
  exists new. split; [done|]. simpl.
  intros Hin. apply list_elem_of_fmap in Hin as (x & Hx & Hxin).
  rewrite Forall_forall in Hnew. apply (Hnew x Hxin). set_solver.
Qed.

(** *** The resolver returns *)

Lemma bounded_deps n t d :
  bounded (S n) t = true -> d ∈ deps t -> bounded n d = true.
Proof.
  simpl. intros Hb Hd. rewrite forallb_forall in Hb.
  apply Hb. by apply list_elem_of_In.
Qed.

Lemma bounded_S n : forall t, bounded n t = true -> bounded (S n) t = true.
Proof.
  induction n as [|n IH]; intros t Hb; [done|].
  change (forallb (bounded (S n)) (deps t) = true).
  apply forallb_forall. intros d Hd. apply IH.
  apply (bounded_deps n t d Hb). by apply list_elem_of_In.
Qed.

(** What a bounded task depends on is bounded as well. *)
Lemma bounded_reaches t u :
  reaches t u -> forall n, bounded n t = true -> bounded n u = true.
Proof.
  induction 1 as [t|t d u Hd _ IH]; intros n Hb; [done|].
  destruct n as [|n]; [done|].
  apply bounded_S, IH. by apply (bounded_deps n t d).
Qed.

(** A bounded task does not depend on itself. *)
Lemma bounded_no_cycle t d :
  d ∈ deps t -> reaches d t -> forall n, bounded n t = false.
Proof.
  intros Hd Hreach. induction n as [|n IH]; [done|].
  destruct (bounded (S n) t) eqn:Hb; [|done].
  rewrite <- IH. symmetry.
  apply (bounded_reaches d t Hreach). by apply (bounded_deps n t d).
Qed.

Lemma reaches_trans t u v : reaches t u -> reaches u v -> reaches t v.
Proof.
  induction 1 as [t|t d u Hd _ IH]; intros Huv; [done|].
  eapply reaches_step; [exact Hd|]. by apply IH.
Qed.

Lemma visit_all_returns (f : list Task -> Task -> graph_error + list Task) ds :
  (forall d, d ∈ ds -> forall order, exists order', f order d = inr order') ->
  forall order, exists order', visit_all f ds order = inr order'.
Proof.
  induction ds as [|d ds IH]; intros Hf order; simpl; [by eexists|].
  destruct (Hf d (list_elem_of_here d ds) order) as [order1 ->].
  apply IH. intros d' Hd'. apply Hf. by apply list_elem_of_further.
Qed.

(** With fuel for the longest chain of dependencies, and no two tasks
    under the root at the same location, a visit returns an order: the
    locations on the stack are those of tasks that depend on the task
    being visited, and a bounded task is none of them. *)
Lemma visit_returns root :
  (forall t u, reaches root t -> reaches root u -> output t = output u -> t = u) ->
  forall fuel (stack : list string) order t,
    bounded fuel t = true ->
    reaches root t ->
    (forall q, q ∈ stack ->
       exists a d, reaches root a /\ output a = q /\ d ∈ deps a /\ reaches d t) ->
    exists order', visit fuel stack order t = inr order'.
Proof.
  intros Hinj. induction fuel as [|fuel IH]; intros stack order t Hb Hroot Hstack;
    [done|].
  cbn [visit]. case_bool_decide as Hon.
  { destruct (Hstack _ Hon) as (a & d & Ha & Hout & Hd & Hdt).
    assert (a = t) as -> by (by apply Hinj).
    by rewrite (bounded_no_cycle t d Hd Hdt (S fuel)) in Hb. }
  case_bool_decide as Hseen; [by eexists|].
  destruct (visit_all_returns (visit fuel (output t :: stack)) (deps t))
    with (order := order) as [order1 ->]; [|by eexists].
  intros d Hd order0. apply IH.
  - by apply (bounded_deps fuel t d).
  - apply (reaches_trans root t d Hroot). eapply reaches_step; [exact Hd|].
    apply reaches_refl.
  - intros q Hq. apply elem_of_cons in Hq as [->|Hq].
    + exists t, d. repeat split; [done|done|apply reaches_refl].
    + destruct (Hstack q Hq) as (a & d' & Ha & Hout & Hd' & Hreach).
      exists a, d'. repeat split; [done..|].
      apply (reaches_trans d' t d Hreach). eapply reaches_step; [exact Hd|].
      apply reaches_refl.
Qed.

(** C3. With fuel for the longest chain of dependencies under the root,
    and no two tasks under the root at the same output location, one
    resolve-and-run sequence on the root returns. It does not run the root
    when its output already exists. When the output of the root does not
    exist beforehand and the sequence ends with the root done, the root
    was run exactly once; a second sequence on the same root, started in
    the state the first one left, returns as well, ends with the root
    done, and does not run the root again: over the two sequences the root
    is run exactly once. *)
Theorem resolve_twice_runs_once (fuel : nat) (root : Task) (w0 : World) :
  bounded fuel root = true ->
  (forall t u, reaches root t -> reaches root u -> output t = output u -> t = u) ->
  exists s1 : Scheduler,
    resolve fuel root w0 [] = inr s1 /\
    (exists_ (fs w0) (output root) = true ->
       invocations (output root) (executed s1) = 0%nat) /\
    (exists_ (fs w0) (output root) = false ->
     statuses s1 !! output root = Some done ->
       invocations (output root) (executed s1) = 1%nat /\
       exists_ (fs (world s1)) (output root) = true /\
       exists s2 : Scheduler,
         resolve fuel root (world s1) (executed s1) = inr s2 /\
         statuses s2 !! output root = Some done /\
         invocations (output root) (executed s2) = 1%nat).
Proof.
  intros Hbounded Hinj.
  destruct (visit_returns root Hinj fuel [] [] root Hbounded (reaches_refl root))
    as [order Hvisit].
  { intros q Hq. by apply elem_of_nil in Hq. }
  unfold resolve. rewrite Hvisit.
  destruct (visit_root _ _ _ Hvisit) as (mid & -> & Hmid).
  eexists. split; [reflexivity|].
  rewrite fold_left_app. simpl.
  set (s0 := {| world := w0; statuses := ∅; executed := [] |}).
  destruct (steps_other mid s0 (output root) Hmid) as (Hfile & _ & Hcount).
  set (sm := fold_left step mid s0) in *.
  split.
  - intros Hex. rewrite step_exists.
    + simpl. by rewrite Hcount.
    + by rewrite (exists_agree _ (fs w0) _ Hfile).
  - intros Hex Hdone.
    assert (Hexm : exists_ (fs (world sm)) (output root) = false).
    { by rewrite (exists_agree _ (fs w0) _ Hfile). }
    destruct (step_done sm root Hexm Hdone) as [Hlog Hex1].
    assert (Hone : invocations (output root) (executed (step sm root)) = 1%nat).
    { rewrite Hlog, invocations_app, Hcount, invocations_self. done. }
    split; [done|split; [done|]].
    eexists. split; [reflexivity|].
    rewrite fold_left_app. simpl.
    set (s0' := {| world := world (step sm root); statuses := ∅;
                   executed := executed (step sm root) |}).
    destruct (steps_other mid s0' (output root) Hmid) as (Hfile' & _ & Hcount').
    rewrite step_exists.
    + simpl. rewrite lookup_insert_eq. split; [done|]. by rewrite Hcount'.
    + by rewrite (exists_agree _ (fs (world (step sm root))) _ Hfile').
Qed.

End ResolverFacts.

(** ** The hypotheses of the theorems can be met *)

Section Witnesses.
Import Resolver Example.
#[local] Existing Instance Example.collaborators.

Lemma adsorption_sites_fan_out_witness :
  committed (fs slabs_made) !! output slabs_task = Some (PDocs slab_docs_made) /\
  exists groups : list (list doc),
    (run sites_task slabs_made).1 = inr tt /\
    committed (fs (run sites_task slabs_made).2) !! output sites_task =
      Some (PDocs (concat groups)) /\
    Forall2 (fun slab_doc group =>
      let tiled := (tile_atoms (make_atoms_from_doc slab_doc) 4.5%float 4.5%float).1 in
      let slab_repeat :=
        (tile_atoms (make_atoms_from_doc slab_doc) 4.5%float 4.5%float).2 in
      Forall2 (fun site d =>
        d !! "adsorption_site" = Some (site_value site) /\
        d !! "slab_repeat" = Some (repeat_value slab_repeat) /\
        exists (adslab : Atoms) (u : Atom),
          (forall k, k ≠ "slab_repeat" -> k ≠ "adsorption_site" ->
             d !! k = make_doc_from_atoms adslab !! k) /\
          last (atoms adslab) = Some u /\ symbol u = "U" /\ tag u = 1)
        (find_adsorption_sites tiled) group)
      slab_docs_made groups.
Proof.
  split; [vm_compute; reflexivity|].
  apply (adsorption_sites_fan_out "mp-30" [1; 1; 1] slab_settings
           [("tol", VFloat 0.25%float)] 4.5%float slab_docs_made slabs_made).
  vm_compute. reflexivity.
Defined.

Lemma example_reachable t :
  reaches sites_task t ->
  t = sites_task \/ t = slabs_task \/ t = FindBulk "mp-30".
Proof.
  intros Hsites. inversion Hsites as [|? d ? Hd Hslabs]; subst; [by left|].
  apply list_elem_of_singleton in Hd as ->.
  inversion Hslabs as [|? d ? Hd Hbulk]; subst; [by right; left|].
  apply list_elem_of_singleton in Hd as ->.
  inversion Hbulk as [|? d ? Hd _]; subst; [by right; right|].
  by apply elem_of_nil in Hd.
Qed.

Lemma example_collision_free t u :
  reaches sites_task t -> reaches sites_task u -> output t = output u -> t = u.
Proof.
  intros Ht Hu Hout.
  destruct (example_reachable t Ht) as [-> | [-> | ->] ];
    destruct (example_reachable u Hu) as [-> | [-> | ->] ];
    try reflexivity; vm_compute in Hout; discriminate.
Qed.

Lemma resolve_twice_runs_once_witness :
  bounded 5 sites_task = true /\
  resolve 5 sites_task empty_world [] = inr first_run /\
  exists_ (fs empty_world) (output sites_task) = false /\
  statuses first_run !! output sites_task = Some done /\
  invocations (output sites_task) (executed first_run) = 1%nat /\
  exists s2,
    resolve 5 sites_task (world first_run) (executed first_run) = inr s2 /\
    statuses s2 !! output sites_task = Some done /\
    invocations (output sites_task) (executed s2) = 1%nat.
Proof.
  assert (Hbounded : bounded 5 sites_task = true) by reflexivity.
  assert (Hrun : resolve 5 sites_task empty_world [] = inr first_run)
    by (vm_compute; reflexivity).
  assert (Hex : exists_ (fs empty_world) (output sites_task) = false)
    by (vm_compute; reflexivity).
  assert (Hdone : statuses first_run !! output sites_task = Some done)
    by (vm_compute; reflexivity).
  destruct (resolve_twice_runs_once 5 sites_task empty_world Hbounded
              example_collision_free) as (s1 & Hs1 & _ & Honce).
  assert (Heq : first_run = s1).
  { exact (f_equal (fun r : graph_error + Scheduler =>
                      match r with inr s => s | inl _ => first_run end)
             (eq_trans (eq_sym Hrun) Hs1)). }
  destruct Heq.
  destruct (Honce Hex Hdone) as (Hone & _ & Hagain).
  repeat split; assumption.
Defined.

Lemma equal_parameters_equal_identity_witness :
  identity slabs_task = identity slabs_task_reordered /\
  output slabs_task = output slabs_task_reordered.
Proof.
  apply equal_parameters_equal_identity; [reflexivity|].
  unfold kwargs_eq. simpl.
  constructor; [split; [reflexivity|constructor]|].
  constructor; [split; [reflexivity|apply pyeq_Tuple; repeat constructor]|].
  constructor; [split; [reflexivity|]|].
  { apply (pyeq_Dict _ _ slab_settings).
    - apply (bool_decide_unpack _). reflexivity.
    - repeat constructor.
    - apply perm_swap. }
  constructor; [split; [reflexivity|]|constructor].
  apply (pyeq_Dict _ _ [("tol", VFloat 0.25%float)]).
  - apply (bool_decide_unpack _). reflexivity.
  - repeat constructor.
  - reflexivity.
Defined.

Lemma failed_run_leaves_no_output_witness :
  (run (GenerateBulk "mp-0") bulk_found).1 = inl (RemoteLookupError "mp-0") /\
  fs (run (GenerateBulk "mp-0") bulk_found).2 = fs bulk_found.
Proof.
  split; [vm_compute; reflexivity|].
  apply (proj1 failed_run_leaves_no_output
           (GenerateBulk "mp-0") bulk_found (RemoteLookupError "mp-0")).
  vm_compute. reflexivity.
Defined.

Lemma run_reads_persisted_inputs_witness :
  (run slabs_task bulk_found).1 = (run slabs_task bulk_found_elsewhere).1 /\
  (forall u, (run slabs_task bulk_found).1 = inr u ->
     committed (fs (run slabs_task bulk_found).2) !! output slabs_task =
     committed (fs (run slabs_task bulk_found_elsewhere).2) !! output slabs_task).
Proof.
  apply run_reads_persisted_inputs; [reflexivity|].
  intros d Hd. apply list_elem_of_singleton in Hd as ->.
  vm_compute. reflexivity.
Defined.

Lemma generate_gas_document_witness :
  g2 "H2" = Some H2 /\
  exists a : Atoms,
    (run (GenerateGas "H2") empty_world).1 = inr tt /\
    committed (fs (run (GenerateGas "H2") empty_world).2) !! output (GenerateGas "H2") =
      Some (PDoc (make_doc_from_atoms a)) /\
    map position (atoms a) =
      map (fun x => let '(px, py, pz) := position x in
                    (PrimFloat.add px 10, PrimFloat.add py 10, PrimFloat.add pz 10)%float)
          (atoms H2) /\
    map symbol (atoms a) = map symbol (atoms H2) /\
    map tag (atoms a) = map tag (atoms H2) /\
    cell a = ((20, 0, 0), (0, 20, 0), (0, 0, 20))%float /\
    pbc a = (true, true, true) /\
    constraints a = constraints H2.
Proof.
  split; [reflexivity|].
  apply (generate_gas_document "H2" H2 empty_world). reflexivity.
Defined.

End Witnesses.

(** * Further properties of the code *)

(** ** [_make_slab_docs_from_structs] *)

Section SlabDocsMore.
Context `{Collaborators}.

Lemma slab_group_length struct :
  length (slab_group struct) =
  if is_structure_invertible struct then 2%nat else 1%nat.
Proof. unfold slab_group. by destruct (is_structure_invertible struct). Qed.

(** X1. No structures give no documents, and the documents of two lists
    of structures put end to end are the documents of the first list
    followed by those of the second: what is built for a structure does
    not depend on the structures around it. *)
Theorem slab_docs_of_concatenation (l1 l2 : list Structure) :
  _make_slab_docs_from_structs [] = [] /\
  _make_slab_docs_from_structs (l1 ++ l2) =
    _make_slab_docs_from_structs l1 ++ _make_slab_docs_from_structs l2.
Proof. split; [done|apply make_slab_docs_app]. Qed.

(** X2. Reordering the structures reorders the documents and does nothing
    else: the documents of a permutation of the input are a permutation of
    the documents of the input. *)
Theorem slab_docs_of_permutation (l1 l2 : list Structure) :
  l1 ≡ₚ l2 ->
  _make_slab_docs_from_structs l1 ≡ₚ _make_slab_docs_from_structs l2.
Proof.
  intros Hperm. rewrite !make_slab_docs_groups.
  induction Hperm as [|s l l' _ IH|s s' l|l l' l'' _ IH1 _ IH2]; simpl.
  - done.
  - by rewrite IH.
  - rewrite !app_assoc. f_equiv. apply Permutation_app_comm.
  - by rewrite IH1.
Qed.

(** X3. The number of documents is the number of structures plus the
    number of invertible ones, so it is at least the number of structures
    and at most twice that number. *)
Theorem slab_docs_count (slab_structures : list Structure) :
  let n := length slab_structures in
  let docs := _make_slab_docs_from_structs slab_structures in
  length docs =
    (n + length (filter (fun s => is_structure_invertible s = true) slab_structures))%nat /\
  (n <= length docs <= 2 * n)%nat.
Proof.
  intros n docs. subst n docs. rewrite make_slab_docs_groups.
  assert (Hlen : length (concat (map slab_group slab_structures)) =
            (length slab_structures +
             length (filter (fun s => is_structure_invertible s = true)
                       slab_structures))%nat).
  { induction slab_structures as [|s l IH]; simpl; [done|].
    rewrite length_app, IH, slab_group_length.
    destruct (is_structure_invertible s) eqn:Hs.
    - rewrite filter_cons_True by done. simpl. lia.
    - rewrite filter_cons_False by (by rewrite Hs). lia. }
  split; [exact Hlen|].
  rewrite Hlen.
  pose proof (length_filter (fun s => is_structure_invertible s = true)
                slab_structures).
  lia.
Qed.

(** X4. Every document that comes out belongs to one of the input
    structures: it carries the [shift] of that structure and a boolean
    [top], it keeps every field of the document that the codec made, and
    [top] is false only when the structure is invertible. *)
Theorem slab_docs_fields (slab_structures : list Structure) :
  Forall (fun d : doc =>
    exists (struct : Structure) (top : bool) (a : Atoms),
      struct ∈ slab_structures /\
      d !! "shift" = Some (VFloat (shift struct)) /\
      d !! "top" = Some (VBool top) /\
      (top = false -> is_structure_invertible struct = true) /\
      dom d = {["top"; "shift"]} ∪ dom (make_doc_from_atoms a))
    (_make_slab_docs_from_structs slab_structures).
Proof.
  rewrite make_slab_docs_groups.
  assert (Hdom : forall struct b a,
            dom (annotate_slab struct b (make_doc_from_atoms a)) =
            {["top"; "shift"]} ∪ dom (make_doc_from_atoms a)).
  { intros struct b a. unfold annotate_slab. rewrite !dom_insert_L.
    by rewrite (assoc_L (∪)). }
  induction slab_structures as [|s l IH]; simpl; [constructor|].
  apply Forall_app. split.
  - assert (Htop : exists (struct : Structure) (top : bool) (a : Atoms),
              struct ∈ s :: l /\
              top_doc s !! "shift" = Some (VFloat (shift struct)) /\
              top_doc s !! "top" = Some (VBool top) /\
              (top = false -> is_structure_invertible struct = true) /\
              dom (top_doc s) = {["top"; "shift"]} ∪ dom (make_doc_from_atoms a)).
    { exists s, true, (constrain_slab (slab_atoms_of s)).
      unfold top_doc. rewrite annotate_slab_shift, annotate_slab_top, Hdom.
      repeat split; [left|done]. }
    unfold slab_group. destruct (is_structure_invertible s) eqn:Hinv.
    + constructor; [exact Htop|]. constructor; [|constructor].
      exists s, false, (constrain_slab (flip_atoms (slab_atoms_of s))).
      unfold flipped_doc. rewrite annotate_slab_shift, annotate_slab_top, Hdom.
      repeat split; [left|done].
    + constructor; [exact Htop|constructor].
  - eapply Forall_impl; [exact IH|].
    intros d (struct & top & a & Hin & Hrest).
    exists struct, top, a. split; [by right|exact Hrest].
Qed.

End SlabDocsMore.

(** ** The [run] methods *)

Section RunMore.
Context `{Collaborators}.

(** A run that is expected to raise does so before it creates an object
    or touches a file. *)
Lemma run_raises_early self w e :
  computed self (pickled_input self (fs w)) = inl e -> run self w = (inl e, w).
Proof.
  destruct self as [gas_name|mpid|mpid mi sgs gss|mpid mi sgs gss min_xy|mpid].
  - simpl. unfold GenerateGas_run.
    destruct (g2 gas_name) as [molecule|]; [done|]. by intros [= <-].
  - simpl run. rewrite GenerateBulk_run_ok.
    change (computed (GenerateBulk mpid) (pickled_input (GenerateBulk mpid) (fs w)))
      with (computed (GenerateBulk mpid) None).
    by intros ->.
  - simpl run. rewrite GenerateSlabs_run_ok.
    unfold pickled_input; simpl deps. by intros ->.
  - unfold pickled_input; simpl deps. simpl run.
    unfold GenerateAdsorptionSites_run, computed.
    destruct (committed (fs w) !! _) as [[d|ds]|] eqn:Hin; [|done|].
    + rewrite (bind_ok _ _ _ _ _ (pickle_load_ok _ _ _ Hin)).
      destruct (map_to_list d) as [|kv kvs]; [done|]. by intros [= <-].
    + intros [= <-]. by rewrite (bind_raise _ _ _ _ _ (pickle_load_missing _ _ Hin)).
  - simpl run. rewrite FindBulk_run_ok.
    change (computed (FindBulk mpid) (pickled_input (FindBulk mpid) (fs w)))
      with (computed (FindBulk mpid) None).
    by intros ->.
Qed.

Lemma length_adslab_docs min_xy slab_docs :
  length (concat (map (adslab_docs_of min_xy) slab_docs)) =
  sum_list (map (fun slab_doc =>
    length (find_adsorption_sites
              (tile_atoms (make_atoms_from_doc slab_doc) min_xy min_xy).1))
    slab_docs).
Proof.
  induction slab_docs as [|sd sds IH]; simpl; [done|].
  rewrite length_app, IH. unfold adslab_docs_of, sites_of, tiled_of.
  by rewrite length_map.
Qed.

(** X5. When the pickle of [FindBulk] for the same [mpid] holds a
    document, [GenerateSlabs.run] succeeds: it saves, at its own output
    location, the slab documents of the slabs enumerated from the atoms of
    that document with its Miller indices and settings, and it changes no
    other file. *)
Theorem generate_slabs_saves_slab_docs (mpid : string) (miller_indices : list Z)
    (sgs gss : pydict) (bulk_doc : doc) (w : World) :
  let self := GenerateSlabs mpid miller_indices sgs gss in
  committed (fs w) !! output (FindBulk mpid) = Some (PDoc bulk_doc) ->
  (run self w).1 = inr tt /\
  committed (fs (run self w).2) !! output self =
    Some (PDocs (_make_slab_docs_from_structs
                   (make_slabs_from_bulk_atoms (make_atoms_from_doc bulk_doc)
                      miller_indices sgs gss))) /\
  (forall q, q ≠ output self ->
     committed (fs (run self w).2) !! q = committed (fs w) !! q).
Proof.
  intros self Hin. subst self. simpl run. rewrite GenerateSlabs_run_ok.
  unfold GenerateSlabs_requires, FindBulk_init. rewrite Hin. simpl.
  split; [done|split; [by rewrite lookup_insert_eq|]].
  intros q Hq. by rewrite lookup_insert_ne.
Qed.

(** X6. When there is no file at the output location of [FindBulk] for
    its [mpid], [GenerateSlabs.run] raises [FileNotFoundError] for that
    path and leaves the state as it found it. *)
Theorem generate_slabs_missing_bulk (mpid : string) (miller_indices : list Z)
    (sgs gss : pydict) (w : World) :
  committed (fs w) !! output (FindBulk mpid) = None ->
  run (GenerateSlabs mpid miller_indices sgs gss) w =
    (inl (FileNotFoundError (output (FindBulk mpid))), w).
Proof.
  intros Hin. apply run_raises_early.
  unfold pickled_input; simpl deps.
  unfold GenerateSlabs_requires, FindBulk_init. by rewrite Hin.
Qed.

(** X7. When the pickle of the required [GenerateSlabs] task holds a list
    of slab documents, [GenerateAdsorptionSites.run] saves a list with as
    many documents as there are sites on the tiled slabs, all slabs taken
    together. With no slab document, or with no site on any slab, it still
    succeeds and saves the empty list. *)
Theorem adsorption_sites_count (mpid : string) (miller_indices : list Z)
    (sgs gss : pydict) (min_xy : float) (slab_docs : list doc) (w : World) :
  let self := GenerateAdsorptionSites mpid miller_indices sgs gss min_xy in
  let n_sites := fun slab_doc : doc =>
    length (find_adsorption_sites
              (tile_atoms (make_atoms_from_doc slab_doc) min_xy min_xy).1) in
  committed (fs w) !! output (GenerateSlabs mpid miller_indices sgs gss) =
    Some (PDocs slab_docs) ->
  exists docs : list doc,
    (run self w).1 = inr tt /\
    committed (fs (run self w).2) !! output self = Some (PDocs docs) /\
    length docs = sum_list (map n_sites slab_docs) /\
    (Forall (fun slab_doc => n_sites slab_doc = 0%nat) slab_docs -> docs = []).
Proof.
  intros self n_sites Hin.
  exists (concat (map (adslab_docs_of min_xy) slab_docs)).
  destruct (run_computed self w) as [objs Hrun].
  unfold pickled_input in Hrun. simpl deps in Hrun.
  unfold GenerateAdsorptionSites_requires, GenerateSlabs_init in Hrun.
  simpl default in Hrun. rewrite Hin in Hrun. simpl computed in Hrun.
  rewrite Hrun. simpl.
  split; [done|split; [by rewrite lookup_insert_eq|split]].
  - apply length_adslab_docs.
  - intros Hnone. apply length_zero_iff_nil.
    rewrite length_adslab_docs. fold n_sites. clear Hrun Hin.
    induction Hnone as [|sd sds Hsd _ IH]; simpl; [done|]. by rewrite Hsd, IH.
Qed.

(** X8. When there is no file at the output location of the required
    [GenerateSlabs] task, [GenerateAdsorptionSites.run] raises
    [FileNotFoundError] for that path and leaves the state as it found
    it. *)
Theorem adsorption_sites_missing_slabs (mpid : string) (miller_indices : list Z)
    (sgs gss : pydict) (min_xy : float) (w : World) :
  committed (fs w) !! output (GenerateSlabs mpid miller_indices sgs gss) = None ->
  run (GenerateAdsorptionSites mpid miller_indices sgs gss min_xy) w =
    (inl (FileNotFoundError (output (GenerateSlabs mpid miller_indices sgs gss))), w).
Proof.
  intros Hin. apply run_raises_early.
  unfold pickled_input; simpl deps.
  unfold GenerateAdsorptionSites_requires, GenerateSlabs_init. simpl default.
  by rewrite Hin.
Qed.

(** X9. [GenerateBulk.run] ends as the lookup of its [mpid] in the
    Materials Project, made with the API key of the configuration, ends.
    When the lookup raises, the run raises the same exception and leaves
    the state as it found it. When the lookup returns a structure, the run
    succeeds and saves the document of the atoms of that structure at its
    output location. *)
Theorem generate_bulk_outcome (mpid : string) (w : World) :
  let self := GenerateBulk mpid in
  match get_structure_by_material_id (read_rc "matproj_api_key") mpid with
  | inl e => run self w = (inl e, w)
  | inr structure =>
      (run self w).1 = inr tt /\
      committed (fs (run self w).2) !! output self =
        Some (PDoc (make_doc_from_atoms (AseAtomsAdaptor_get_atoms structure)))
  end.
Proof.
  intros self. subst self. simpl run. rewrite GenerateBulk_run_ok.
  unfold computed, Py.bind.
  destruct (get_structure_by_material_id _ mpid) as [e|structure]; [done|].
  simpl. by rewrite lookup_insert_eq.
Qed.

(** X10. For a name that the g2 collection does not have,
    [GenerateGas.run] raises [KeyError] for that name and leaves the state
    as it found it: no object, no file. *)
Theorem generate_gas_unknown_name (gas_name : string) (w : World) :
  g2 gas_name = None ->
  run (GenerateGas gas_name) w = (inl (KeyError gas_name), w).
Proof.
  intros Hg2. apply run_raises_early. simpl. by rewrite Hg2.
Qed.

(** X11. A run never changes or removes an object that was on the heap
    before it started, whatever the task and however the run ends: what it
    moves, re-cells or tags is an object it has created itself. *)
Theorem run_keeps_objects (self : Task) (w : World) (r : Run.ref) (a : Atoms) :
  heap w !! r = Some a -> heap (run self w).2 !! r = Some a.
Proof.
  intros Hr. destruct (run_computed self w) as [objs ->].
  destruct (computed self _); simpl; by apply lookup_app_l_Some.
Qed.

(** X12. The slabs and the adsorption sites compose. When the bulk was
    found, [GenerateSlabs.run] succeeds, and in the state it leaves every
    [GenerateAdsorptionSites] task with the same [mpid], Miller indices and
    settings, whatever its [min_xy], finds the pickle it loads in the form
    it expects: its run succeeds and saves one document per site of each
    of the slab documents that [GenerateSlabs] saved. *)
Theorem slabs_then_sites (mpid : string) (miller_indices : list Z)
    (sgs gss : pydict) (bulk_doc : doc) (w : World) :
  let slabs := GenerateSlabs mpid miller_indices sgs gss in
  let w1 := (run slabs w).2 in
  let slab_docs :=
    _make_slab_docs_from_structs
      (make_slabs_from_bulk_atoms (make_atoms_from_doc bulk_doc)
         miller_indices sgs gss) in
  committed (fs w) !! output (FindBulk mpid) = Some (PDoc bulk_doc) ->
  (run slabs w).1 = inr tt /\
  forall min_xy : float,
    let sites := GenerateAdsorptionSites mpid miller_indices sgs gss min_xy in
    exists docs : list doc,
      (run sites w1).1 = inr tt /\
      committed (fs (run sites w1).2) !! output sites = Some (PDocs docs) /\
      length docs =
        sum_list (map (fun slab_doc =>
          length (find_adsorption_sites
                    (tile_atoms (make_atoms_from_doc slab_doc) min_xy min_xy).1))
          slab_docs).
Proof.
  intros slabs w1 slab_docs Hin.
  assert (Hslabs : run slabs w =
            (inr tt, {| heap := heap w;
                        fs := saved (output slabs) (PDocs slab_docs) (fs w) |})).
  { subst slabs. simpl run. rewrite GenerateSlabs_run_ok.
    unfold GenerateSlabs_requires, FindBulk_init. by rewrite Hin. }
  split; [by rewrite Hslabs|].
  intros min_xy sites.
  exists (concat (map (adslab_docs_of min_xy) slab_docs)).
  destruct (run_computed sites w1) as [objs Hrun].
  unfold pickled_input in Hrun. simpl deps in Hrun.
  unfold GenerateAdsorptionSites_requires, GenerateSlabs_init in Hrun.
  simpl default in Hrun. fold slabs in Hrun.
  assert (Hw1 : committed (fs w1) !! output slabs = Some (PDocs slab_docs)).
  { subst w1. rewrite Hslabs. simpl. by rewrite lookup_insert_eq. }
  rewrite Hw1 in Hrun. simpl computed in Hrun. rewrite Hrun. simpl.
  split; [done|split; [by rewrite lookup_insert_eq|]].
  apply length_adslab_docs.
Qed.

(** X14. The documents that the loop over the slab documents builds do not
    depend on the state it starts in nor on the documents collected so
    far: the loop always succeeds, appends its documents to those
    collected so far, writes no file, and over two lists of slab documents
    put end to end it builds the documents of the first list followed by
    those of the second. *)
Theorem marking_is_independent_of_state (min_xy : float) (l1 l2 : list doc)
    (docs : list doc) (w w1 w2 : World) :
  exists d1 d2 : list doc,
    (Run.for_ (mark_sites_of_slab min_xy) l1 [] w1).1 = inr d1 /\
    (Run.for_ (mark_sites_of_slab min_xy) l2 [] w2).1 = inr d2 /\
    (Run.for_ (mark_sites_of_slab min_xy) (l1 ++ l2) docs w).1 =
      inr (docs ++ d1 ++ d2) /\
    fs (Run.for_ (mark_sites_of_slab min_xy) (l1 ++ l2) docs w).2 = fs w.
Proof.
  exists (concat (map (adslab_docs_of min_xy) l1)),
         (concat (map (adslab_docs_of min_xy) l2)).
  destruct (mark_sites_of_slabs_ok min_xy l1 [] w1) as [o1 ->].
  destruct (mark_sites_of_slabs_ok min_xy l2 [] w2) as [o2 ->].
  destruct (mark_sites_of_slabs_ok min_xy (l1 ++ l2) docs w) as [o ->].
  simpl. by rewrite map_app, concat_app.
Qed.

End RunMore.

(** ** The hypotheses of the further properties can be met *)

Section WitnessesMore.
Import Example.
#[local] Existing Instance Example.collaborators.

Lemma slab_docs_of_permutation_witness :
  _make_slab_docs_from_structs [slab_up; slab_flat] ≡ₚ
  _make_slab_docs_from_structs [slab_flat; slab_up].
Proof. apply slab_docs_of_permutation. apply perm_swap. Defined.

Lemma generate_slabs_saves_slab_docs_witness :
  committed (fs bulk_found) !! output (FindBulk "mp-30") = Some (PDoc (encode Cu)) /\
  (run slabs_task bulk_found).1 = inr tt /\
  committed (fs (run slabs_task bulk_found).2) !! output slabs_task =
    Some (PDocs slab_docs_made) /\
  (forall q, q ≠ output slabs_task ->
     committed (fs (run slabs_task bulk_found).2) !! q =
     committed (fs bulk_found) !! q).
Proof.
  split; [vm_compute; reflexivity|].
  assert (Hin : committed (fs bulk_found) !! output (FindBulk "mp-30") =
                 Some (PDoc (encode Cu))) by (vm_compute; reflexivity).
  exact (generate_slabs_saves_slab_docs "mp-30" [1; 1; 1] slab_settings
           [("tol", VFloat 0.25%float)] (encode Cu) bulk_found Hin).
Defined.

Lemma generate_slabs_missing_bulk_witness :
  committed (fs empty_world) !! output (FindBulk "mp-30") = None /\
  run slabs_task empty_world =
    (inl (FileNotFoundError (output (FindBulk "mp-30"))), empty_world).
Proof.
  split; [vm_compute; reflexivity|].
  apply generate_slabs_missing_bulk. vm_compute. reflexivity.
Defined.

Lemma adsorption_sites_count_witness :
  committed (fs slabs_made) !! output slabs_task = Some (PDocs slab_docs_made) /\
  exists docs : list doc,
    (run sites_task slabs_made).1 = inr tt /\
    committed (fs (run sites_task slabs_made).2) !! output sites_task =
      Some (PDocs docs) /\
    length docs =
      sum_list (map (fun slab_doc : doc =>
        length (find_adsorption_sites
                  (tile_atoms (make_atoms_from_doc slab_doc) 4.5%float 4.5%float).1))
        slab_docs_made) /\
    (Forall (fun slab_doc : doc =>
       length (find_adsorption_sites
                 (tile_atoms (make_atoms_from_doc slab_doc) 4.5%float 4.5%float).1)
       = 0%nat) slab_docs_made -> docs = []).
Proof.
  split; [vm_compute; reflexivity|].
  apply (adsorption_sites_count "mp-30" [1; 1; 1] slab_settings
           [("tol", VFloat 0.25%float)] 4.5%float slab_docs_made slabs_made).
  vm_compute. reflexivity.
Defined.

Lemma adsorption_sites_missing_slabs_witness :
  committed (fs empty_world) !! output slabs_task = None /\
  run sites_task empty_world =
    (inl (FileNotFoundError (output slabs_task)), empty_world).
Proof.
  split; [vm_compute; reflexivity|].
  apply (adsorption_sites_missing_slabs "mp-30" [1; 1; 1] slab_settings
           [("tol", VFloat 0.25%float)] 4.5%float empty_world).
  vm_compute. reflexivity.
Defined.

Lemma generate_gas_unknown_name_witness :
  g2 "O3" = None /\
  run (GenerateGas "O3") bulk_found = (inl (KeyError "O3"), bulk_found).
Proof.
  split; [reflexivity|].
  apply generate_gas_unknown_name. reflexivity.
Defined.

Lemma slabs_then_sites_witness :
  committed (fs bulk_found) !! output (FindBulk "mp-30") = Some (PDoc (encode Cu)) /\
  (run slabs_task bulk_found).1 = inr tt /\
  forall min_xy : float,
    exists docs : list doc,
      (run (GenerateAdsorptionSites "mp-30" [1; 1; 1] slab_settings
              [("tol", VFloat 0.25%float)] min_xy)
           (run slabs_task bulk_found).2).1 = inr tt /\
      committed
        (fs (run (GenerateAdsorptionSites "mp-30" [1; 1; 1] slab_settings
                    [("tol", VFloat 0.25%float)] min_xy)
                 (run slabs_task bulk_found).2).2)
        !! output (GenerateAdsorptionSites "mp-30" [1; 1; 1] slab_settings
                     [("tol", VFloat 0.25%float)] min_xy) = Some (PDocs docs) /\
      length docs =
        sum_list (map (fun slab_doc : doc =>
          length (find_adsorption_sites
                    (tile_atoms (make_atoms_from_doc slab_doc) min_xy min_xy).1))
          slab_docs_made).
Proof.
  split; [vm_compute; reflexivity|].
  assert (Hin : committed (fs bulk_found) !! output (FindBulk "mp-30") =
                 Some (PDoc (encode Cu))) by (vm_compute; reflexivity).
  exact (slabs_then_sites "mp-30" [1; 1; 1] slab_settings
           [("tol", VFloat 0.25%float)] (encode Cu) bulk_found Hin).
Defined.

Lemma run_keeps_objects_witness :
  heap bulk_found_elsewhere !! 0%nat = Some H2 /\
  heap (run (GenerateGas "H2") bulk_found_elsewhere).2 !! 0%nat = Some H2.
Proof.
  split; [reflexivity|].
  apply run_keeps_objects. reflexivity.
Defined.

End WitnessesMore.
